(** * Deep hedging GUI: dataset assembly, training worker, delta sub-model

    A shallow embedding of [PyQt5/deep_hedging_gui.py]:
    - [MainWindow.simulate_stock_prices] and [MainWindow.assemble_data]
      (sample sizes, layout of [x_all], train/test split);
    - [DH_Worker] (the flags [_exit] and [_pause], [stop], [is_running] and
      the training loop [run]);
    - [MainWindow.Define_DH_Delta_Strategy_Model] (scan of [model.layers]);
    - the risk measures imported from [loss_metrics].

    Conventions.  Python [int] is [Z]; the floats that feed [int()] are
    IEEE binary64 values with their rounding ([spec_float], precision 53);
    the floats of the loss formulas are real numbers [R].  A Python exception is a value of [exn] and a computation that may
    raise returns a [result].  TensorFlow, NumPy and the clock are reached
    through the record [Backend]. *)

From Stdlib Require Import List ZArith Reals Lra Lia Bool String Ascii.
From Stdlib Require Import Permutation Sorted SpecFloat.
Import ListNotations.
Open Scope string_scope.
Open Scope list_scope.

(* ================================================================= *)
(** ** Exceptions and fallible computations *)

Module Py.

Inductive exn : Type :=
| UnboundLocalError (name : string)
| NameError (name : string)
| AttributeError (msg : string)
| StopIteration
| InvalidArgumentError (msg : string)
| ValueError (msg : string)
| OverflowError (msg : string)
| RuntimeError (msg : string).

Inductive result (A : Type) : Type :=
| Ok (a : A)
| Raise (e : exn).

Arguments Ok {A} a.
Arguments Raise {A} e.

Definition bind {A B : Type} (c : result A) (k : A -> result B) : result B :=
  match c with
  | Ok a => k a
  | Raise e => Raise e
  end.

(** Python floats: IEEE binary64, every operation rounded to nearest,
    ties to even. *)
Definition float : Type := spec_float.

Definition prec : Z := 53.
Definition emax : Z := 1024.

Definition float_add (x y : float) : float := SFadd prec emax x y.
Definition float_mul (x y : float) : float := SFmul prec emax x y.

(** The conversion of an [int] operand of a mixed [int]/[float] operation;
    Python refuses an integer beyond the range of a float. *)
Definition float_of_int (n : Z) : result float :=
  match binary_normalize prec emax n 0 false with
  | S754_infinity _ => Raise (OverflowError "int too large to convert to float")
  | x => Ok x
  end.

(** [int(x)] on a float: truncation toward zero; infinities and NaN are
    refused. *)
Definition int (x : float) : result Z :=
  match x with
  | S754_zero _ => Ok 0%Z
  | S754_infinity _ => Raise (OverflowError "cannot convert float infinity to integer")
  | S754_nan => Raise (ValueError "cannot convert float NaN to integer")
  | S754_finite s m e =>
      let a := if (0 <=? e)%Z then (Zpos m * 2 ^ e)%Z else (Zpos m / 2 ^ (- e))%Z in
      Ok (if s then (- a)%Z else a)
  end.

(** [str(n)] for the day numbers the GUI uses (two decimal digits at most
    are needed: [days_from_today = 15]). *)
Definition digit (n : nat) : string :=
  String (ascii_of_nat (48 + n mod 10)) EmptyString.

Fixpoint str_fuel (fuel n : nat) : string :=
  match fuel with
  | O => digit n
  | S f => if Nat.ltb n 10 then digit n
           else String.append (str_fuel f (n / 10)) (digit n)
  end.

Definition str (n : nat) : string := str_fuel n n.

End Py.

Export Py.

Declare Scope py_scope.
Delimit Scope py_scope with py.
Notation "x <- c ;; k" := (bind c (fun x => k))
  (at level 61, c at next level, right associativity) : py_scope.
Notation "' pat <- c ;; k" := (bind c (fun x => match x with pat => k end))
  (at level 61, pat pattern, c at next level, right associativity) : py_scope.
Open Scope py_scope.

(* ================================================================= *)
(** ** Module-level configuration constants (lines 45-71) *)

Module Config.

Inductive information_mode : Type := Info_S | Info_log_S | Info_normalized_log_S.

Record Globals : Type := {
  information_set : information_mode;
  loss_type : string;
  final_period_cost : bool;
  num_bins : Z
}.

(** The values the file ships with. *)
Definition shipped : Globals := {|
  information_set := Info_normalized_log_S;
  loss_type := "Entropy";
  final_period_cost := false;
  num_bins := 30
|}.

Definition set_loss_type (s : string) (g : Globals) : Globals := {|
  information_set := information_set g;
  loss_type := s;
  final_period_cost := final_period_cost g;
  num_bins := num_bins g
|}.

End Config.

(* ================================================================= *)
(** ** Dataset assembly *)

Module Dataset.
Import Config.

(** *** Sample sizes ([simulate_stock_prices] line 456, [assemble_data] line 492) *)

(** [int(self.Ktrain*(1+self.Ktest_ratio))]: a float sum, then a float
    product with the converted [Ktrain], each rounded, then truncation. *)
Definition nobs (Ktrain : Z) (Ktest_ratio : float) : result Z :=
  one <- float_of_int 1 ;;
  k <- float_of_int Ktrain ;;
  int (float_mul k (float_add one Ktest_ratio)).

(** [int(self.Ktrain*self.Ktest_ratio)] *)
Definition test_size (Ktrain : Z) (Ktest_ratio : float) : result Z :=
  k <- float_of_int Ktrain ;;
  int (float_mul k Ktest_ratio).

(** *** The split ([assemble_data] lines 491-496) *)

(** The two contiguous conventions the specification allows: the first
    [test_size] paths go to test and the remainder to train, or the other
    way round. *)
Inductive split_rule : Type := TestFirst | TrainFirst.

Definition train_part {A : Type} (rule : split_rule) (t : nat) (x : list A) : list A :=
  match rule with
  | TestFirst => skipn t x
  | TrainFirst => firstn (List.length x - t) x
  end.

Definition test_part {A : Type} (rule : split_rule) (t : nat) (x : list A) : list A :=
  match rule with
  | TestFirst => firstn t x
  | TrainFirst => skipn (List.length x - t) x
  end.

(** Modelled from the spec: the split of one array by
    [utilities.train_test_split], whose file is not part of the sources.
    The specification describes a non-shuffling split by contiguous index
    ranges, with [test_size] required to be smaller than the number of
    paths and a zero test size allowed. *)
Definition split_array {A : Type} (rule : split_rule) (tsize : Z) (x : list A)
  : result (list A * list A) :=
  let n := Z.of_nat (List.length x) in
  if ((tsize <? 0) || (n <=? tsize))%Z
  then Raise (ValueError "test_size must be smaller than the number of paths")
  else
    let t := Z.to_nat tsize in
    Ok (train_part rule t x, test_part rule t x).

(** Modelled from the spec: [utilities.train_test_split(data, test_size)],
    whose file is not part of the sources.  As its three call sites use it,
    it takes a list of arrays, splits every one of them the same way, and
    returns the list of train parts and the list of test parts. *)
Fixpoint train_test_split {A : Type} (rule : split_rule)
  (data : list (list A)) (tsize : Z) : result (list (list A) * list (list A)) :=
  match data with
  | [] => Ok ([], [])
  | x :: rest =>
      '(tr, te) <- split_array rule tsize x ;;
      '(trs, tes) <- train_test_split rule rest tsize ;;
      Ok (tr :: trs, te :: tes)
  end.

(** The index sets of the two partitions: the split applied to the path
    indices [0 .. nobs-1] ([gen_path] is asked for [nobs] paths, line 466). *)
Definition path_indices (n : Z) : list nat := seq 0 (Z.to_nat n).

Definition split_indices (rule : split_rule) (Ktrain : Z) (Ktest_ratio : float)
  : result (list nat * list nat) :=
  n <- nobs Ktrain Ktest_ratio ;;
  t <- test_size Ktrain Ktest_ratio ;;
  split_array rule t (path_indices n).

(** *** Layout of [x_all] ([assemble_data] lines 469-489) *)

Section Assemble.

(** Entries of the NumPy arrays, with the operations the method applies. *)
Variable num : Type.
Variable zero : num.
Variable np_log : num -> num.
Variable np_div : num -> num -> num.
Variable payoff_func : num -> num.

(** [S]: one row per simulated path, [N+1] prices per row. *)
Definition paths : Type := list (list num).

(** A column tensor of shape [(nobs, 1)]: one entry per path. *)
Definition column : Type := list num.

(** [np.stack((S), axis=1)[i]]: the prices of all paths at step [i]. *)
Definition stack_axis1 (S : paths) (i : nat) : column :=
  map (fun row => nth i row zero) S.

(** [self.payoff_T = self.payoff_func(self.S[:,-1])] *)
Definition payoff_T (S : paths) : column :=
  map (fun row => payoff_func (last row zero)) S.

Definition trade_set (S : paths) (i : nat) : column := stack_axis1 S i.

(** [self.I], by the information mode.  The source compares the flag with
    [is]; the flag and the three literals are interned constants of one
    module, so the comparison decides equality of the names. *)
Definition I (mode : information_mode) (S0 : num) (S : paths) (i : nat) : column :=
  match mode with
  | Info_S => stack_axis1 S i
  | Info_log_S => stack_axis1 (map (map np_log) S) i
  | Info_normalized_log_S =>
      stack_axis1 (map (map (fun s => np_log (np_div s S0))) S) i
  end.

(** The body of [for i in range(self.N+1)]. *)
Definition x_all_step (N : nat) (trade info : nat -> column)
  (acc : list column) (i : nat) : list column :=
  let acc := acc ++ [trade i] in
  if Nat.eqb i N then acc else acc ++ [info i].

Definition x_all_of (N : nat) (trade info : nat -> column) (payoff : column)
  : list column :=
  fold_left (x_all_step N trade info) (seq 0 (N + 1)) [] ++ [payoff].

Definition x_all (g : Globals) (N : nat) (S0 : num) (S : paths) : list column :=
  x_all_of N (trade_set S) (I (information_set g) S0 S) (payoff_T S).

(** [tf.data.Dataset.from_tensor_slices(tuple(xs))]: element [k] is the
    tuple of the [k]-th entries of the tensors, in the order of [xs]. *)
Definition tensor_slice (xs : list column) (k : nat) : list num :=
  map (fun col => nth k col zero) xs.

(** The ordering the specification gives for a training example:
    interleaved (trade, information) for steps [0 .. N-1], then the
    information signal at step [N], then the payoff. *)
Definition spec_TrainingExample_order (N : nat) (trade info : nat -> column)
  (payoff : column) : list column :=
  flat_map (fun i => [trade i; info i]) (seq 0 N) ++ [info N] ++ [payoff].

(** The ordering the loop builds. *)
Definition built_order (N : nat) (trade info : nat -> column)
  (payoff : column) : list column :=
  flat_map (fun i => [trade i; info i]) (seq 0 N) ++ [trade N] ++ [payoff].

End Assemble.

Arguments stack_axis1 {num} zero S i.
Arguments payoff_T {num} zero payoff_func S.
Arguments trade_set {num} zero S i.
Arguments I {num} zero np_log np_div mode S0 S i.
Arguments x_all_step {num} N trade info acc i.
Arguments x_all_of {num} N trade info payoff.
Arguments x_all {num} zero np_log np_div payoff_func g N S0 S.
Arguments tensor_slice {num} zero xs k.
Arguments spec_TrainingExample_order {num} N trade info payoff.
Arguments built_order {num} N trade info payoff.

(** [self.payoff_func = lambda x: -np.maximum(x - self.strike, 0.0)]
    (line 257), over the reals. *)
Definition payoff_func (strike x : R) : R := (- Rmax (x - strike) 0)%R.

End Dataset.

(* ================================================================= *)
(** ** The training worker [DH_Worker] (lines 76-170) *)

Module Worker.
Import Config.

(** *** What the worker calls but does not define

    TensorFlow, NumPy, [loss_metrics] and [time].  [shuffle k] is the order
    the [k]-th call of [dataset.shuffle] happens to draw and [time_time k] is
    the [k]-th reading of [time.time()]; both are inputs of a run.  The sign
    of [end - start] is the sign of the difference of the two readings, so
    the readings are kept as integers (clock ticks). *)
Record Backend : Type := {
  example : Type;
  weights : Type;
  gradients : Type;
  optimizer_state : Type;
  wealth_t : Type;
  scalar : Type;
  deltas : Type;
  histogram : Type;
  tf_zero : scalar;
  (** [tf.function(self.model)] applied to a tuple of input tensors *)
  model_func : weights -> list example -> result wealth_t;
  (** [submodel_func(np.expand_dims(self.I_range, axis=1))] *)
  submodel_func : weights -> result deltas;
  (** [from loss_metrics import Entropy, CVaR] *)
  Entropy : wealth_t -> scalar -> scalar -> result scalar;
  CVaR : wealth_t -> scalar -> scalar -> result scalar;
  (** [np.histogram(PnL_DH + initial_price_BS, bins = ..., range = x_range)] *)
  np_histogram : wealth_t -> Z -> histogram;
  (** [tape.gradient(loss, weights)] for the computation the tape recorded *)
  tape_gradient : (weights -> result scalar) -> weights -> result gradients;
  Adam : scalar -> optimizer_state;
  apply_gradients : optimizer_state -> weights -> gradients -> optimizer_state * weights;
  shuffle : nat -> list example -> list example;
  time_time : nat -> Z
}.

(** [dataset.shuffle] only reorders the examples. *)
Definition shuffle_permutes (B : Backend) : Prop :=
  forall (k : nat) (l : list (example B)), Permutation (shuffle B k l) l.

(** Every reading of the clock is later than the one before. *)
Definition clock_advances (B : Backend) : Prop :=
  forall k : nat, (time_time B k < time_time B (S k))%Z.

(** No TensorFlow computation of a step raises. *)
Definition never_raises (B : Backend) : Prop :=
  (forall w xs, exists v, model_func B w xs = Ok v)
  /\ (forall wl c lp, exists v, Entropy B wl c lp = Ok v)
  /\ (forall w, exists v, submodel_func B w = Ok v)
  /\ (forall f w, exists v, tape_gradient B f w = Ok v).

(** [dataset.batch(size)]: consecutive groups of [size] elements, the last
    one possibly shorter. *)
Fixpoint batch_fuel {A : Type} (fuel size : nat) (l : list A) : list (list A) :=
  match fuel with
  | O => []
  | S f =>
      match l with
      | [] => []
      | _ :: _ => firstn size l :: batch_fuel f size (skipn size l)
      end
  end.

Definition batch {A : Type} (size : nat) (l : list A) : list (list A) :=
  batch_fuel (List.length l) size l.

(** Number of mini-batches of an epoch: [ceil(K / B)]. *)
Definition ceil_div (K B : nat) : nat := (K + B - 1) / B.

Section WithBackend.

Context {B : Backend}.

(** The attributes of the worker object that [run] reads or writes. *)
Record DH_Worker : Type := {
  _exit : bool;
  _pause : bool;
  training_dataset : list (example B);
  Ktrain : Z;
  batch_size : Z;
  epochs : Z;
  model : weights B;
  loss_param : scalar B;
  learning_rate : scalar B;
  xtest : list (example B)
}.

Definition set_flags (e p : bool) (w : DH_Worker) : DH_Worker := {|
  _exit := e; _pause := p;
  training_dataset := training_dataset w; Ktrain := Ktrain w;
  batch_size := batch_size w; epochs := epochs w; model := model w;
  loss_param := loss_param w; learning_rate := learning_rate w;
  xtest := xtest w
|}.

Definition set_model (m : weights B) (w : DH_Worker) : DH_Worker := {|
  _exit := _exit w; _pause := _pause w;
  training_dataset := training_dataset w; Ktrain := Ktrain w;
  batch_size := batch_size w; epochs := epochs w; model := m;
  loss_param := loss_param w; learning_rate := learning_rate w;
  xtest := xtest w
|}.

(** Everything the worker object holds, as one tuple. *)
Definition attributes (w : DH_Worker) :=
  (_exit w, _pause w, training_dataset w, Ktrain w, batch_size w, epochs w,
   model w, loss_param w, learning_rate w, xtest w).

(** [__init__]: both flags start cleared. *)
Definition init (ds : list (example B)) (K bs ep : Z) (m : weights B)
  (lp lr : scalar B) (xt : list (example B)) : DH_Worker := {|
  _exit := false; _pause := false;
  training_dataset := ds; Ktrain := K; batch_size := bs; epochs := ep;
  model := m; loss_param := lp; learning_rate := lr; xtest := xt
|}.

(** [run_deep_hedge_algo] (lines 86-102) stores its arguments on the worker
    and starts the thread; the two flags keep the values they have. *)
Definition run_deep_hedge_algo (w : DH_Worker) (ds : list (example B))
  (ep K bs : Z) (m : weights B) (lp lr : scalar B) (xt : list (example B))
  : DH_Worker := {|
  _exit := _exit w; _pause := _pause w;
  training_dataset := ds; Ktrain := K; batch_size := bs; epochs := ep;
  model := m; loss_param := lp; learning_rate := lr; xtest := xt
|}.

Definition pause (w : DH_Worker) : DH_Worker := set_flags (_exit w) true w.

Definition cont (w : DH_Worker) : DH_Worker := set_flags (_exit w) false w.

(** [stop]: sets the flag; [self.exit()] only addresses a Qt event loop,
    which the overridden [run] never enters, and touches no attribute. *)
Definition stop (w : DH_Worker) : DH_Worker := set_flags true (_pause w) w.

Definition is_running (w : DH_Worker) : bool :=
  if _pause w || _exit w then false else true.

(** *** The frame of [run] *)

(** The local variable [mini_batch_iter]: not yet assigned, [None], or an
    iterator with the batches it still has to yield. *)
Inductive iterator_var : Type :=
| Unbound
| PyNone
| Iterator (remaining : list (list (example B))).

(** One emission of the signal [DH_outputs]. *)
Record snapshot : Type := {
  PnL_DH : wealth_t B;
  DH_delta : deltas B;
  DH_bins : histogram B;
  loss : scalar B;
  at_epoch : Z;
  at_batch : Z
}.

Record frame : Type := {
  self : DH_Worker;
  certainty_equiv : scalar B;
  optimizer : optimizer_state B;
  num_epoch : Z;
  num_batch : option Z;          (* [None]: not yet assigned *)
  mini_batch_iter : iterator_var;
  start : Z;
  clock_reads : nat;             (* calls of [time.time()] so far *)
  shuffles : nat;                (* calls of [dataset.shuffle] so far *)
  emitted : list snapshot;       (* oldest first *)
  optimizer_steps : nat;         (* calls of [apply_gradients] so far *)
  sleeps : nat                   (* calls of [time.sleep(1)] so far *)
}.

Definition set_self (w : DH_Worker) (st : frame) : frame := {|
  self := w; certainty_equiv := certainty_equiv st; optimizer := optimizer st;
  num_epoch := num_epoch st; num_batch := num_batch st;
  mini_batch_iter := mini_batch_iter st; start := start st;
  clock_reads := clock_reads st; shuffles := shuffles st;
  emitted := emitted st; optimizer_steps := optimizer_steps st;
  sleeps := sleeps st
|}.

Definition set_iter (it : iterator_var) (st : frame) : frame := {|
  self := self st; certainty_equiv := certainty_equiv st; optimizer := optimizer st;
  num_epoch := num_epoch st; num_batch := num_batch st;
  mini_batch_iter := it; start := start st;
  clock_reads := clock_reads st; shuffles := shuffles st;
  emitted := emitted st; optimizer_steps := optimizer_steps st;
  sleeps := sleeps st
|}.

Definition set_counters (e : Z) (b : option Z) (st : frame) : frame := {|
  self := self st; certainty_equiv := certainty_equiv st; optimizer := optimizer st;
  num_epoch := e; num_batch := b;
  mini_batch_iter := mini_batch_iter st; start := start st;
  clock_reads := clock_reads st; shuffles := shuffles st;
  emitted := emitted st; optimizer_steps := optimizer_steps st;
  sleeps := sleeps st
|}.

Definition count_shuffle (st : frame) : frame := {|
  self := self st; certainty_equiv := certainty_equiv st; optimizer := optimizer st;
  num_epoch := num_epoch st; num_batch := num_batch st;
  mini_batch_iter := mini_batch_iter st; start := start st;
  clock_reads := clock_reads st; shuffles := S (shuffles st);
  emitted := emitted st; optimizer_steps := optimizer_steps st;
  sleeps := sleeps st
|}.

Definition sleep (st : frame) : frame := {|
  self := self st; certainty_equiv := certainty_equiv st; optimizer := optimizer st;
  num_epoch := num_epoch st; num_batch := num_batch st;
  mini_batch_iter := mini_batch_iter st; start := start st;
  clock_reads := clock_reads st; shuffles := shuffles st;
  emitted := emitted st; optimizer_steps := optimizer_steps st;
  sleeps := S (sleeps st)
|}.

(** Lines 120-130: the frame on entry of the [while] loop. *)
Definition enter_run (w : DH_Worker) : frame := {|
  self := w; certainty_equiv := tf_zero B;
  optimizer := Adam B (learning_rate w);
  num_epoch := 0; num_batch := None; mini_batch_iter := Unbound;
  start := time_time B 0; clock_reads := 1; shuffles := 0;
  emitted := []; optimizer_steps := 0; sleeps := 0
|}.

(** *** One mini-batch step (lines 149-168) *)

(** [mini_batch_iter.next()] *)
Definition next_batch (it : iterator_var)
  : result (list (example B) * iterator_var) :=
  match it with
  | Unbound => Raise (UnboundLocalError "mini_batch_iter")
  | PyNone => Raise (AttributeError "'NoneType' object has no attribute 'next'")
  | Iterator [] => Raise StopIteration
  | Iterator (b :: rest) => Ok (b, Iterator rest)
  end.

(** Line 146.  TensorFlow rejects a shuffle buffer or a batch size that is
    not positive. *)
Definition new_iterator (st : frame) : result iterator_var :=
  let w := self st in
  if (Ktrain w <=? 0)%Z
  then Raise (InvalidArgumentError "buffer_size must be greater than zero")
  else if (batch_size w <=? 0)%Z
  then Raise (InvalidArgumentError "batch_size must be greater than zero")
  else Ok (Iterator (batch (Z.to_nat (batch_size w))
                           (shuffle B (shuffles st) (training_dataset w)))).

(** The computation recorded under [tf.GradientTape] (lines 152-154), as a
    function of the trainable weights. *)
Definition recorded_loss (g : Globals) (st : frame) (mini_batch : list (example B))
  : weights B -> result (scalar B) :=
  fun w =>
    wealth <- model_func B w mini_batch ;;
    Entropy B wealth (certainty_equiv st) (loss_param (self st)).

(** What a step computes before it changes anything (lines 152-161). *)
Definition forward_backward (g : Globals) (st : frame) (mini_batch : list (example B))
  : result (snapshot * gradients B) :=
  let w := model (self st) in
  loss_v <- recorded_loss g st mini_batch w ;;
  pnl <- model_func B w (xtest (self st)) ;;
  delta <- submodel_func B w ;;
  let bins := np_histogram B pnl (num_bins g) in
  grads <- tape_gradient B (recorded_loss g st mini_batch) w ;;
  Ok ({| PnL_DH := pnl; DH_delta := delta; DH_bins := bins; loss := loss_v;
         at_epoch := num_epoch st;
         at_batch := match num_batch st with Some b => b | None => 0%Z end |},
      grads).

(** Lines 162-168: the optimizer step, the clock reading and the emission. *)
Definition commit (st : frame) (snap : snapshot) (grads : gradients B) : frame :=
  let '(opt, w) := apply_gradients B (optimizer st) (model (self st)) grads in
  let end_ := time_time B (clock_reads st) in
  let fire := (end_ - start st >? 0)%Z in
  {| self := set_model w (self st);
     certainty_equiv := certainty_equiv st;
     optimizer := opt;
     num_epoch := num_epoch st; num_batch := num_batch st;
     mini_batch_iter := mini_batch_iter st;
     start := if fire then end_ else start st;
     clock_reads := S (clock_reads st); shuffles := shuffles st;
     emitted := if fire then emitted st ++ [snap] else emitted st;
     optimizer_steps := S (optimizer_steps st);
     sleeps := sleeps st |}.

Inductive exit_reason : Type :=
| EpochsDone       (* the [while] condition is false *)
| StopHonoured.    (* [break] under [if self._exit] *)

Inductive outcome : Type :=
| Next (st : frame)                       (* back to the [while] test *)
| Exit (r : exit_reason) (st : frame)     (* the loop is left, [run] returns *)
| Uncaught (e : exn) (st : frame).        (* an exception leaves [run] *)

Definition training_step (g : Globals) (st : frame) (mini_batch : list (example B))
  : outcome :=
  match num_batch st with
  | None => Uncaught (UnboundLocalError "num_batch") st
  | Some b =>
      let st := set_counters (num_epoch st) (Some (b + 1)%Z) st in
      match forward_backward g st mini_batch with
      | Raise e => Uncaught e st
      | Ok (snap, grads) => Next (commit st snap grads)
      end
  end.

(** Lines 143-147: the body of the bare [except:]. *)
Definition except_body (g : Globals) (st : frame) : outcome :=
  let st := set_counters (num_epoch st + 1)%Z (Some 0%Z) st in
  match new_iterator st with
  | Raise e => Uncaught e st
  | Ok it =>
      let st := count_shuffle (set_iter it st) in
      match next_batch it with
      | Raise e => Uncaught e st
      | Ok (mini_batch, it') => training_step g (set_iter it' st) mini_batch
      end
  end.

(** One pass through the body of [while num_epoch <= self.epochs]. *)
Definition iteration (g : Globals) (st : frame) : outcome :=
  if negb (num_epoch st <=? epochs (self st))%Z then Exit EpochsDone st
  else if _exit (self st) then
    Exit StopHonoured (set_self (set_flags false false (self st)) (set_iter PyNone st))
  else if negb (_pause (self st)) then
    match next_batch (mini_batch_iter st) with
    | Ok (mini_batch, it) => training_step g (set_iter it st) mini_batch
    | Raise _ => except_body g st
    end
  else Next (sleep st).

(** *** The loop, with the GUI thread

    [gui k] lists the calls the GUI thread makes on the worker between the
    end of pass [k-1] and the [while] test of pass [k]. *)
Inductive call : Type := CallPause | CallCont | CallStop.

Definition deliver (w : DH_Worker) (c : call) : DH_Worker :=
  match c with
  | CallPause => pause w
  | CallCont => cont w
  | CallStop => stop w
  end.

Definition deliver_all (cs : list call) (st : frame) : frame :=
  set_self (fold_left deliver cs (self st)) st.

Inductive run_result : Type :=
| Returned (r : exit_reason) (st : frame)
| Crashed (e : exn) (st : frame)
| StillLooping (st : frame).    (* the passes allowed are used up *)

Fixpoint run_loop (g : Globals) (gui : nat -> list call) (passes k : nat)
  (st : frame) : run_result :=
  match passes with
  | O => StillLooping st
  | S n =>
      match iteration g (deliver_all (gui k) st) with
      | Next st' => run_loop g gui n (S k) st'
      | Exit r st' => Returned r st'
      | Uncaught e st' => Crashed e st'
      end
  end.

Definition run (g : Globals) (gui : nat -> list call) (passes : nat)
  (w : DH_Worker) : run_result :=
  run_loop g gui passes 0 (enter_run w).

Definition no_gui : nat -> list call := fun _ => [].

Definition final_frame (r : run_result) : frame :=
  match r with
  | Returned _ st => st
  | Crashed _ st => st
  | StillLooping st => st
  end.

(** A frame of an undisturbed run of worker [w0]: flags clear, the
    configuration still that of [w0], and the last clock reading kept in
    [start] older than the next one. *)
Definition steady (w0 : DH_Worker) (st : frame) : Prop :=
  _exit (self st) = false /\ _pause (self st) = false
  /\ training_dataset (self st) = training_dataset w0
  /\ Ktrain (self st) = Ktrain w0
  /\ batch_size (self st) = batch_size w0
  /\ epochs (self st) = epochs w0
  /\ (start st < time_time B (clock_reads st))%Z.

End WithBackend.

Arguments DH_Worker : clear implicits.
Arguments iterator_var : clear implicits.
Arguments snapshot : clear implicits.
Arguments frame : clear implicits.
Arguments outcome : clear implicits.
Arguments run_result : clear implicits.

(** *** A small executable backend

    Examples are numbers, the weights count the optimizer steps, the model
    returns the batch it was given and a loss is the sum of the wealth; the
    clock advances by one tick per reading and [shuffle] reverses. *)
Definition toy : Backend := {|
  example := Z;
  weights := Z;
  gradients := Z;
  optimizer_state := Z;
  wealth_t := list Z;
  scalar := Z;
  deltas := Z;
  histogram := Z;
  tf_zero := 0%Z;
  model_func := fun _ xs => Ok xs;
  submodel_func := fun w => Ok w;
  Entropy := fun wl _ _ => Ok (fold_right Z.add 0%Z wl);
  CVaR := fun wl _ _ => Ok (fold_right Z.min 0%Z wl);
  np_histogram := fun wl bins => Z.of_nat (List.length wl);
  tape_gradient := fun _ _ => Ok 1%Z;
  Adam := fun lr => 0%Z;
  apply_gradients := fun o w gr => ((o + 1)%Z, (w + gr)%Z);
  shuffle := fun _ l => rev l;
  time_time := fun k => Z.of_nat k
|}.

(** The toy backend with a model that fails on every call. *)
Definition failing (e : exn) : Backend := {|
  example := Z;
  weights := Z;
  gradients := Z;
  optimizer_state := Z;
  wealth_t := list Z;
  scalar := Z;
  deltas := Z;
  histogram := Z;
  tf_zero := 0%Z;
  model_func := fun _ _ => Raise e;
  submodel_func := fun w => Ok w;
  Entropy := fun wl _ _ => Ok (fold_right Z.add 0%Z wl);
  CVaR := fun wl _ _ => Ok (fold_right Z.min 0%Z wl);
  np_histogram := fun wl bins => Z.of_nat (List.length wl);
  tape_gradient := fun _ _ => Ok 1%Z;
  Adam := fun lr => 0%Z;
  apply_gradients := fun o w gr => ((o + 1)%Z, (w + gr)%Z);
  shuffle := fun _ l => rev l;
  time_time := fun k => Z.of_nat k
|}.

Definition toy_worker (ds : list Z) (bs ep : Z) : DH_Worker toy :=
  @init toy ds (Z.of_nat (List.length ds)) bs ep 0%Z 1%Z 1%Z [7%Z].

Definition failing_worker (e : exn) (ds : list Z) (bs ep : Z) : DH_Worker (failing e) :=
  @init (failing e) ds (Z.of_nat (List.length ds)) bs ep 0%Z 1%Z 1%Z [7%Z].

End Worker.

(* ================================================================= *)
(** ** The delta-only sub-model (lines 319-346) *)

Module SubModel.

(** A Keras layer: its name and an identity that tells two layers of the
    same name apart. *)
Record layer : Type := {
  name : string;
  ident : nat
}.

(** Symbolic Keras tensors. *)
Inductive tensor : Type :=
| ConcatInputs                      (* [Concatenate()([Input(1,), Input(1,)])] *)
| Apply (l : layer) (t : tensor)    (* [l(t)] *)
| InputOf (l : layer)               (* [l.input] *)
| OutputOf (l : layer).             (* [l.output] *)

Inductive inputs_t : Type :=
| TwoInputs                         (* [[Input(1,), Input(1,)]] *)
| Tensor (t : tensor).

Inductive keras_model : Type :=
| Model (inputs : inputs_t) (outputs : tensor).

(** [self.days_from_today = 15] in [MainWindow.__init__]. *)
Definition days_from_today : nat := 15.

(** [model.get_layer(n)]: the first layer of that name; Keras raises
    [ValueError] when there is none. *)
Definition get_layer (layers : list layer) (n : string) : result layer :=
  match find (fun l => String.eqb (name l) n) layers with
  | Some l => Ok l
  | None => Raise (ValueError (String.append "No such layer: " n))
  end.

(** Reading a variable of the function: the names assigned somewhere in the
    function body are its locals; any other name is looked up among the
    module globals, where a missing name raises [NameError]. *)
Definition env : Type := list (string * bool).

Definition read (locals : env) (x : string) : result bool :=
  match find (fun p => String.eqb (fst p) x) locals with
  | Some (_, v) => Ok v
  | None => Raise (NameError x)
  end.

Definition assign (x : string) (v : bool) (locals : env) : env :=
  (x, v) :: locals.

(** The [for idx in range(num_layers)] loop, from position [idx] on. *)
Fixpoint scan (days : nat) (layers : list layer) (locals : env) (outputs : tensor)
  : result tensor :=
  match layers with
  | [] => Ok outputs
  | l :: rest =>
      let after_branch (locals : env) :=
        flag <- read locals "flag_add_layer_for_submodel" ;;
        scan days rest locals (if flag then Apply l outputs else outputs) in
      if String.eqb (name l) (String.append "dense_0_" (str days)) then
        after_branch (assign "flag_add_layer" true locals)
      else if String.eqb (name l) "delta_15" then
        Ok (Apply l outputs)                                  (* [break] *)
      else after_branch locals
  end.

(** [Define_DH_Delta_Strategy_Model].  A result [Ok (Model i o)] says that
    the method reaches Keras' [Model] with inputs [i] and outputs [o]; what
    Keras then checks of the graph is not part of this file. *)
Definition Define_DH_Delta_Strategy_Model (days : nat) (strategy_type : string)
  (layers : list layer) : result keras_model :=
  if String.eqb strategy_type "simple" then
    first <- get_layer layers (String.append "dense_0_" (str days)) ;;
    last_ <- get_layer layers (String.append "delta_" (str days)) ;;
    Ok (Model (Tensor (InputOf first)) (OutputOf last_))
  else if String.eqb strategy_type "recurrent" then
    outputs <- scan days layers (assign "flag_add_layer" false []) ConcatInputs ;;
    Ok (Model TwoInputs outputs)
  else Raise (UnboundLocalError "submodel").

(** A layer the construction expects is absent from the network. *)
Definition expected_layer_absent (days : nat) (layers : list layer) : Prop :=
  ~ In (String.append "dense_0_" (str days)) (map name layers) \/
  ~ In "delta_15" (map name layers).

End SubModel.

(* ================================================================= *)
(** ** Risk measures over the reals *)

Module Loss.

Open Scope R_scope.

Definition total (l : list R) : R := fold_right Rplus 0 l.

Definition mean (l : list R) : R := total l / INR (List.length l).

(** Modelled from the spec: [loss_metrics.Entropy] is imported but its file
    is not part of the sources.  The spec gives, for a vector of terminal
    wealth [W] and risk aversion [lambda > 0],
    loss = (1/lambda) log( mean( exp(-lambda W) ) ).  The second argument is
    the variable [certainty_equiv] the worker passes. *)
Definition Entropy (wealth : list R) (w : R) (loss_param : R) : R :=
  (1 / loss_param) * ln (mean (map (fun x => exp (- loss_param * x)) wealth)).

(** Modelled from the spec: [loss_metrics.CVaR] is imported but its file is
    not part of the sources.  The spec describes the expected shortfall in
    the Rockafellar-Uryasev formulation with an auxiliary threshold
    variable [w] and level [alpha]. *)
Definition CVaR (wealth : list R) (w : R) (loss_param : R) : R :=
  w + mean (map (fun x => Rmax (- x - w) 0) wealth) / (1 - loss_param).

(** [W + c]: the constant added to every wealth value. *)
Definition add_const (wealth : list R) (c : R) : list R :=
  map (fun x => x + c) wealth.

Close Scope R_scope.

(** The backend whose losses are the two measures above; an example is the
    terminal wealth of its path and the model returns the wealth of the
    batch. *)
Definition reals : Worker.Backend := {|
  Worker.example := R;
  Worker.weights := unit;
  Worker.gradients := unit;
  Worker.optimizer_state := unit;
  Worker.wealth_t := list R;
  Worker.scalar := R;
  Worker.deltas := unit;
  Worker.histogram := unit;
  Worker.tf_zero := 0%R;
  Worker.model_func := fun _ xs => Ok xs;
  Worker.submodel_func := fun _ => Ok tt;
  Worker.Entropy := fun wl w lp => Ok (Entropy wl w lp);
  Worker.CVaR := fun wl w lp => Ok (CVaR wl w lp);
  Worker.np_histogram := fun _ _ => tt;
  Worker.tape_gradient := fun _ _ => Ok tt;
  Worker.Adam := fun _ => tt;
  Worker.apply_gradients := fun _ _ _ => (tt, tt);
  Worker.shuffle := fun _ l => l;
  Worker.time_time := fun k => Z.of_nat k
|}.

End Loss.

(* ================================================================= *)
(** ** What a run keeps true *)

Module Trace.
Import Config Worker.

Section WithBackend.

Context {B : Backend}.

(** The pair (epoch, batch) a snapshot is emitted with. *)
Definition label (s : snapshot B) : Z * Z := (at_epoch s, at_batch s).

(** Lexicographic order on labels. *)
Definition label_lt (a b : Z * Z) : Prop :=
  (fst a < fst b)%Z \/ (fst a = fst b /\ (snd a < snd b)%Z).

(** A label is not later than the counters [(e, b)]. *)
Definition not_after (e b : Z) (a : Z * Z) : Prop :=
  (fst a < e)%Z \/ (fst a = e /\ (snd a <= b)%Z).

(** The attributes of the worker that configure a session. *)
Definition config (w : DH_Worker B) :=
  (training_dataset w, Ktrain w, batch_size w, epochs w, loss_param w,
   learning_rate w, xtest w).

(** The frame an outcome of a pass carries. *)
Definition outcome_frame (o : outcome B) : frame B :=
  match o with
  | Next st => st
  | Exit _ st => st
  | Uncaught _ st => st
  end.

(** What holds of every frame of a run of worker [w0], whatever the GUI
    thread and the backend do. *)
Definition run_invariant (w0 : DH_Worker B) (st : frame B) : Prop :=
  config (self st) = config w0
  /\ (0 <= num_epoch st <= Z.max 0 (epochs w0 + 1))%Z
  /\ (List.length (emitted st) <= optimizer_steps st)%nat
  /\ (optimizer_steps st = 0%nat -> model (self st) = model w0)
  /\ StronglySorted label_lt (map label (emitted st))
  /\ Forall (fun a => (1 <= fst a)%Z /\ (1 <= snd a)%Z) (map label (emitted st))
  /\ match num_batch st with
     | None => emitted st = []
     | Some b =>
         (0 <= b)%Z /\ (1 <= num_epoch st)%Z
         /\ Forall (not_after (num_epoch st) b) (map label (emitted st))
     end.

(** A frame with [m] more calls of [time.sleep(1)] counted. *)
Definition add_sleeps (m : nat) (st : frame B) : frame B := {|
  self := self st; certainty_equiv := certainty_equiv st; optimizer := optimizer st;
  num_epoch := num_epoch st; num_batch := num_batch st;
  mini_batch_iter := mini_batch_iter st; start := start st;
  clock_reads := clock_reads st; shuffles := shuffles st;
  emitted := emitted st; optimizer_steps := optimizer_steps st;
  sleeps := sleeps st + m
|}.

Definition map_outcome (f : frame B -> frame B) (o : outcome B) : outcome B :=
  match o with
  | Next st => Next (f st)
  | Exit r st => Exit r (f st)
  | Uncaught e st => Uncaught e (f st)
  end.

Definition map_result (f : frame B -> frame B) (r : run_result B) : run_result B :=
  match r with
  | Returned x st => Returned x (f st)
  | Crashed e st => Crashed e (f st)
  | StillLooping st => StillLooping (f st)
  end.

End WithBackend.

Definition is_stop_call (c : call) : bool :=
  match c with
  | CallStop => true
  | _ => false
  end.

(** The GUI thread calls [pause()] before pass [k] and [cont()] before pass
    [k + m], and nothing else. *)
Definition pause_window (k m : nat) : nat -> list call :=
  fun i =>
    if Nat.eqb i k then [CallPause]
    else if Nat.eqb i (k + m) then [CallCont]
    else [].

End Trace.

(* ================================================================= *)
(** * Properties *)

(** ** Dataset assembly *)

Section DatasetFacts.
Import Config Dataset.

Lemma seq_parts_disjoint (n t : nat) (i : nat) :
  In i (firstn t (seq 0 n)) -> ~ In i (skipn t (seq 0 n)).
Proof.
  intros H1 H2.
  pose proof (seq_NoDup n 0) as ND.
  rewrite <- (firstn_skipn t (seq 0 n)) in ND.
  apply NoDup_app_remove_l in ND as ND2.
  revert ND H1 H2. generalize (firstn t (seq 0 n)) (skipn t (seq 0 n)).
  intros l1. induction l1 as [|a l1 IH]; intros l2 ND H1 H2; [contradiction|].
  simpl in ND. inversion ND as [|? ? Hnin ND']; subst.
  destruct H1 as [->|H1].
  - apply Hnin. apply in_or_app. now right.
  - now apply (IH l2).
Qed.

Lemma seq_parts_cover (n t : nat) (i : nat) :
  (i < n)%nat <-> In i (firstn t (seq 0 n)) \/ In i (skipn t (seq 0 n)).
Proof.
  rewrite <- in_app_iff, firstn_skipn, in_seq. lia.
Qed.

Lemma rows_by_index {A : Type} (d : A) (x : list A) :
  x = map (fun i => nth i x d) (seq 0 (List.length x)).
Proof.
  induction x as [|a x IH]; simpl; [reflexivity|].
  f_equal. rewrite <- seq_shift, map_map. exact IH.
Qed.

(** The part of an array that goes to train (test) holds the rows at the
    train (test) indices, in order. *)
Lemma parts_follow_indices {A : Type} (d : A) (rule : split_rule) (t : nat)
  (x : list A) :
  train_part rule t x
    = map (fun i => nth i x d) (train_part rule t (seq 0 (List.length x)))
  /\ test_part rule t x
    = map (fun i => nth i x d) (test_part rule t (seq 0 (List.length x))).
Proof.
  destruct rule; unfold train_part, test_part;
    rewrite ?length_seq, <- ?skipn_map, <- ?firstn_map, <- rows_by_index;
    now split.
Qed.

(** The loop of [assemble_data] up to, but not including, step [N]. *)
Lemma x_all_prefix (num : Type) (N : nat) (trade info : nat -> column num) :
  forall k a acc, (a + k <= N)%nat ->
    fold_left (x_all_step N trade info) (seq a k) acc
    = acc ++ flat_map (fun i => [trade i; info i]) (seq a k).
Proof.
  induction k as [|k IH]; intros a acc Hle; simpl.
  - now rewrite app_nil_r.
  - rewrite IH by lia. unfold x_all_step.
    destruct (Nat.eqb_spec a N) as [->|_]; [lia|].
    now rewrite <- !app_assoc.
Qed.

(** The split keeps the order of the arrays it is given: the train parts
    are the arrays' train parts, one by one. *)
Lemma train_test_split_columnwise {A : Type} (rule : split_rule) (tsize : Z) :
  forall (data xtrain xtest : list (list A)),
    train_test_split rule data tsize = Ok (xtrain, xtest) ->
    xtrain = map (train_part rule (Z.to_nat tsize)) data
    /\ xtest = map (test_part rule (Z.to_nat tsize)) data.
Proof.
  induction data as [|x data IH]; intros xtrain xtest H; simpl in H.
  - injection H as <- <-. now split.
  - unfold split_array in H at 1.
    destruct ((tsize <? 0)%Z || (Z.of_nat (List.length x) <=? tsize)%Z);
      [discriminate|].
    cbn [bind] in H.
    destruct (train_test_split rule data tsize) as [[trs tes]|]; [|discriminate].
    cbn [bind] in H. injection H as <- <-.
    destruct (IH trs tes eq_refl) as [-> ->]. now split.
Qed.

Lemma x_all_of_built (num : Type) (N : nat) (trade info : nat -> column num)
  (payoff : column num) :
  x_all_of N trade info payoff = built_order N trade info payoff.
Proof.
  unfold x_all_of, built_order.
  rewrite seq_app, fold_left_app.
  rewrite (x_all_prefix num N trade info N 0 []) by lia. simpl.
  unfold x_all_step. rewrite Nat.eqb_refl. now rewrite <- app_assoc.
Qed.

End DatasetFacts.

Section DatasetClaims.
Import Config Dataset.

(** C1 (as amended).  The list [x_all] that [assemble_data] builds holds, for
    every step [i = 0 .. N-1], the trade signal at step [i] followed by the
    information signal at step [i]; then comes the trade signal at step [N]
    (the loop skips the information signal of the last step), and the
    terminal payoff is the last element.  Every per-path tuple sliced from
    it has its entries in that same order, whatever part of each column the
    train/test split keeps. *)
Theorem x_all_layout :
  forall (num : Type) (zero : num) (np_log : num -> num)
         (np_div : num -> num -> num) (payoff : num -> num)
         (g : Globals) (N : nat) (S0 : num) (S : paths num),
    let trade := trade_set zero S in
    let info := I zero np_log np_div (information_set g) S0 S in
    x_all zero np_log np_div payoff g N S0 S
      = flat_map (fun i => [trade i; info i]) (seq 0 N)
        ++ [trade N; payoff_T zero payoff S]
    /\ forall (part : column num -> column num) (k : nat),
        tensor_slice zero (map part (x_all zero np_log np_div payoff g N S0 S)) k
        = flat_map (fun i => [nth k (part (trade i)) zero;
                              nth k (part (info i)) zero]) (seq 0 N)
          ++ [nth k (part (trade N)) zero;
              nth k (part (payoff_T zero payoff S)) zero].
Proof.
  intros num zero np_log np_div payoff g N S0 S trade info.
  assert (E : x_all zero np_log np_div payoff g N S0 S
              = flat_map (fun i => [trade i; info i]) (seq 0 N)
                ++ [trade N; payoff_T zero payoff S]).
  { unfold x_all. rewrite x_all_of_built. reflexivity. }
  split; [exact E|].
  intros part k. rewrite E. clear E. unfold tensor_slice.
  rewrite !map_app. f_equal.
  induction (seq 0 N) as [|i l IH]; simpl; [reflexivity|].
  rewrite IH. reflexivity.
Qed.

(** C1 (as stated) fails: for one path with prices [1, 1], [N = 1] and
    [S0 = 1] under the shipped information mode, the element before the
    payoff is the price [1], while the stated order puts the information
    signal [log(1/1) = 0] there. *)
Lemma x_all_not_spec_order :
  x_all 0%R ln Rdiv (payoff_func 1) shipped 1 1%R [[1%R; 1%R]]
  <> spec_TrainingExample_order 1
       (trade_set 0%R [[1%R; 1%R]])
       (I 0%R ln Rdiv (information_set shipped) 1%R [[1%R; 1%R]])
       (payoff_T 0%R (payoff_func 1) [[1%R; 1%R]]).
Proof.
  unfold x_all. rewrite x_all_of_built.
  unfold built_order, spec_TrainingExample_order. cbn.
  intros H. injection H as H.
  assert (E : (1 / 1 = 1)%R) by lra.
  rewrite E, ln_1 in H. lra.
Qed.

(** C6.  For every valid configuration -- one for which the sample sizes
    can be computed and the test size is not negative and smaller than the
    number of simulated paths -- the split divides the path indices
    [0 .. nobs-1] into a train part and a test part of [test_size] indices
    whose sizes add up to the number of simulated paths, and which are
    disjoint and together cover every path, whichever of the two contiguous
    conventions is used. *)
Theorem split_partitions_paths :
  forall (rule : split_rule) (Ktrain : Z) (Ktest_ratio : float) (n t : Z),
    nobs Ktrain Ktest_ratio = Ok n ->
    test_size Ktrain Ktest_ratio = Ok t ->
    (0 <= t < n)%Z ->
    exists train test : list nat,
      split_indices rule Ktrain Ktest_ratio = Ok (train, test)
      /\ (Z.of_nat (List.length train) + Z.of_nat (List.length test) = n)%Z
      /\ Z.of_nat (List.length test) = t
      /\ (forall i, In i train -> ~ In i test)
      /\ (forall i, (i < Z.to_nat n)%nat <-> In i train \/ In i test).
Proof.
  intros rule K r n t Hn Ht Hvalid.
  unfold split_indices. rewrite Hn, Ht. cbn [bind].
  unfold split_array, path_indices.
  rewrite length_seq, Z2Nat.id by lia.
  set (n' := Z.to_nat n). set (t' := Z.to_nat t).
  assert (Hlt : (t' < n')%nat) by (subst n' t'; lia).
  assert (Hn' : Z.of_nat n' = n) by (subst n'; lia).
  assert (Ht' : Z.of_nat t' = t) by (subst t'; lia).
  replace ((t <? 0)%Z || (n <=? t)%Z) with false
    by (symmetry; apply orb_false_iff; split; [apply Z.ltb_ge | apply Z.leb_gt]; lia).
  exists (train_part rule t' (seq 0 n')), (test_part rule t' (seq 0 n')).
  split; [reflexivity|].
  destruct rule; unfold train_part, test_part;
    rewrite ?length_skipn, ?length_firstn, ?length_seq.
  - split; [lia|]. split; [lia|]. split.
    + intros i Hi Hi'. exact (seq_parts_disjoint n' t' i Hi' Hi).
    + intros i. rewrite (seq_parts_cover n' t' i). tauto.
  - split; [lia|]. split; [lia|]. split.
    + intros i. apply seq_parts_disjoint.
    + intros i. apply seq_parts_cover.
Qed.

Lemma split_partitions_paths_witness :
  exists train test : list nat,
    split_indices TrainFirst 100 (S754_finite false 5224175567749775 (-54))
    = Ok (train, test)
    /\ (Z.of_nat (List.length train) + Z.of_nat (List.length test) = 129)%Z
    /\ Z.of_nat (List.length test) = 28%Z
    /\ (forall i, In i train -> ~ In i test)
    /\ (forall i, (i < Z.to_nat 129)%nat <-> In i train \/ In i test).
Proof.
  apply (split_partitions_paths TrainFirst 100
           (S754_finite false 5224175567749775 (-54)) 129 28).
  - vm_compute. reflexivity.
  - vm_compute. reflexivity.
  - lia.
Defined.

(** The sample sizes at two configurations, the ratios being the binary64
    values of 0.29 and 0.001: the rounded products fall just below 29 and
    1001, and the paths left for training are 101 and 999, not [Ktrain]. *)
Example sample_sizes_are_rounded :
  test_size 100 (S754_finite false 5224175567749775 (-54)) = Ok 28%Z
  /\ nobs 100 (S754_finite false 5224175567749775 (-54)) = Ok 129%Z
  /\ test_size 1000 (S754_finite false 4611686018427388 (-62)) = Ok 1%Z
  /\ nobs 1000 (S754_finite false 4611686018427388 (-62)) = Ok 1000%Z.
Proof. vm_compute. repeat split. Qed.

End DatasetClaims.

(* ================================================================= *)
(** ** The worker: flags, stop and the loop *)

Section WorkerFacts.
Import Config Worker.
Context {B : Backend}.

Lemma training_step_never_exits (g : Globals) (st : frame B) mb r st' :
  training_step g st mb <> Exit r st'.
Proof.
  unfold training_step. destruct (num_batch st); [|discriminate].
  destruct (forward_backward _ _ _) as [[? ?]|]; discriminate.
Qed.

Lemma except_body_never_exits (g : Globals) (st : frame B) r st' :
  except_body g st <> Exit r st'.
Proof.
  unfold except_body. destruct (new_iterator _); [|discriminate].
  destruct (next_batch _) as [[? ?]|]; [|discriminate].
  apply training_step_never_exits.
Qed.

(** The only way out by [break] clears both flags. *)
Lemma stop_honoured_clears_flags (g : Globals) (st st' : frame B) :
  iteration g st = Exit StopHonoured st' ->
  _exit (self st') = false /\ _pause (self st') = false
  /\ emitted st' = emitted st /\ optimizer_steps st' = optimizer_steps st
  /\ model (self st') = model (self st).
Proof.
  unfold iteration.
  destruct (negb _); [discriminate|].
  destruct (_exit (self st)).
  - intros H. injection H as <-. repeat split.
  - destruct (negb _); [|discriminate].
    destruct (next_batch _) as [[? ?]|].
    + intros H. now apply training_step_never_exits in H.
    + intros H. now apply except_body_never_exits in H.
Qed.

Lemma deliver_keeps_exit (cs : list call) (w : DH_Worker B) :
  _exit w = true -> _exit (fold_left deliver cs w) = true.
Proof.
  revert w. induction cs as [|c cs IH]; intros w Hw; simpl; [exact Hw|].
  apply IH. destruct c; simpl; auto.
Qed.

Lemma deliver_stop_sets_exit (cs : list call) (w : DH_Worker B) :
  In CallStop cs -> _exit (fold_left deliver cs w) = true.
Proof.
  revert w. induction cs as [|c cs IH]; intros w Hin; simpl; [contradiction|].
  destruct Hin as [->|Hin].
  - now apply deliver_keeps_exit.
  - now apply IH.
Qed.

Lemma deliver_keeps_config (cs : list call) (w : DH_Worker B) :
  epochs (fold_left deliver cs w) = epochs w
  /\ model (fold_left deliver cs w) = model w.
Proof.
  revert w. induction cs as [|c cs IH]; intros w; simpl; [now split|].
  destruct (IH (deliver w c)) as [-> ->]. destruct c; now split.
Qed.

(** A pass that finds [_exit] set leaves the loop at once. *)
Lemma iteration_on_exit (g : Globals) (st : frame B) :
  (num_epoch st <= epochs (self st))%Z -> _exit (self st) = true ->
  iteration g st
  = Exit StopHonoured (set_self (set_flags false false (self st)) (set_iter PyNone st)).
Proof.
  intros Hlive Hexit. unfold iteration.
  replace (num_epoch st <=? epochs (self st))%Z with true
    by (symmetry; now apply Z.leb_le).
  simpl. now rewrite Hexit.
Qed.

Lemma run_loop_stop_honoured (g : Globals) (gui : nat -> list call) :
  forall passes k (st st' : frame B),
    run_loop g gui passes k st = Returned StopHonoured st' ->
    _exit (self st') = false /\ _pause (self st') = false.
Proof.
  induction passes as [|n IH]; intros k st st' H; simpl in H; [discriminate|].
  destruct (iteration g (deliver_all (gui k) st)) as [st1|r st1|e st1] eqn:E.
  - now apply IH in H.
  - injection H as -> ->. apply stop_honoured_clears_flags in E. tauto.
  - discriminate.
Qed.

End WorkerFacts.

Section WorkerClaims.
Import Config Worker.

(** C9.  [is_running()] is true exactly when neither [_pause] nor [_exit] is
    set: it is false for a worker that is merely paused, although [cont]
    resumes it; and when the loop has returned because a stop request was
    honoured, both flags have been cleared, so [is_running()] is true
    although the loop has ended. *)
Theorem is_running_after_stop :
  forall (B : Backend) (g : Globals) (gui : nat -> list call)
         (passes k : nat) (st st' : frame B),
    run_loop g gui passes k st = Returned StopHonoured st' ->
    (forall w : DH_Worker B,
        is_running w = negb (_pause w) && negb (_exit w))
    /\ (forall w : DH_Worker B,
        is_running (pause w) = false
        /\ is_running (cont (pause w)) = negb (_exit w))
    /\ is_running (self st') = true.
Proof.
  intros B g gui passes k st st' H.
  split; [|split].
  - intros w. unfold is_running. destruct (_pause w), (_exit w); reflexivity.
  - intros w. unfold is_running, pause, cont. simpl. split; [reflexivity|].
    destruct (_exit w); reflexivity.
  - apply run_loop_stop_honoured in H as [He Hp].
    unfold is_running. now rewrite He, Hp.
Qed.

Lemma is_running_after_stop_witness :
  is_running
    (self (final_frame
             (run shipped (fun k => if Nat.eqb k 2 then [CallStop] else [])
                  20 (toy_worker [1; 2; 3; 4; 5]%Z 2 2)))) = true.
Proof.
  refine (proj2 (proj2
    (is_running_after_stop toy shipped
       (fun k => if Nat.eqb k 2 then [CallStop] else []) 20 0
       (enter_run (toy_worker [1; 2; 3; 4; 5]%Z 2 2)) _ _))).
  vm_compute. reflexivity.
Defined.

(** When [stop()] is called on a worker whose loop is still scheduled to
    run (running or paused), the next pass of the loop observes the flag
    and leaves the loop: [run] returns with the snapshots, the optimizer
    steps and the weights it had, the remaining epochs abandoned.  Calling
    [stop()] again before that pass changes nothing: it only sets a flag
    that is already set. *)
Theorem stop_abandons_training :
  forall (B : Backend) (g : Globals) (gui : nat -> list call)
         (passes k : nat) (st : frame B),
    (num_epoch st <= epochs (self st))%Z ->
    In CallStop (gui k) ->
    (exists st' : frame B,
        run_loop g gui (S passes) k st = Returned StopHonoured st'
        /\ emitted st' = emitted st
        /\ optimizer_steps st' = optimizer_steps st
        /\ model (self st') = model (self st))
    /\ (forall w : DH_Worker B,
          stop (stop w) = stop w /\ _exit (stop w) = true
          /\ _pause (stop w) = _pause w).
Proof.
  intros B g gui passes k st Hlive Hstop.
  split.
  - pose proof (deliver_stop_sets_exit (gui k) (self st) Hstop) as Hexit.
    pose proof (deliver_keeps_config (gui k) (self st)) as [Hep Hmod].
    assert (Hlive' : (num_epoch (deliver_all (gui k) st)
                      <= epochs (self (deliver_all (gui k) st)))%Z).
    { simpl. now rewrite Hep. }
    eexists. simpl run_loop.
    rewrite (iteration_on_exit g _ Hlive' Hexit).
    split; [reflexivity|]. simpl. now rewrite Hmod.
  - intros w. unfold stop. simpl. repeat split.
Qed.

Lemma stop_abandons_training_witness :
  exists st' : frame toy,
    run_loop shipped (fun _ => [CallPause; CallStop; CallStop]) 1 0
      (enter_run (toy_worker [1; 2; 3; 4]%Z 2 2)) = Returned StopHonoured st'
    /\ emitted st' = []
    /\ optimizer_steps st' = 0%nat
    /\ model (self st') = 0%Z.
Proof.
  refine (proj1 (stop_abandons_training toy shipped
            (fun _ => [CallPause; CallStop; CallStop]) 0 0
            (enter_run (toy_worker [1; 2; 3; 4]%Z 2 2)) _ _)).
  - vm_compute. discriminate.
  - simpl. auto.
Defined.

(** C7 (what the code does instead).  Calling [stop()] when the session has
    already stopped is not harmless.  After a session of 2 epochs over 4
    paths has returned by itself, a [stop()] is consumed by nothing: the
    flag stays set on the worker object, and the next session started on it
    with [run_deep_hedge_algo] leaves the loop at its first pass, with no
    optimizer step and no snapshot -- whereas the same session started
    without that [stop()] trains its 5 batches. *)
Theorem stop_after_return_stays_pending :
  let done := self (final_frame (run shipped no_gui 6 (toy_worker [1; 2; 3; 4]%Z 2 2))) in
  let restart (w : DH_Worker toy) :=
    run_deep_hedge_algo w [1; 2; 3; 4]%Z 2 4 2 0%Z 1%Z 1%Z [7%Z] in
  (exists st : frame toy,
      run shipped no_gui 6 (toy_worker [1; 2; 3; 4]%Z 2 2) = Returned EpochsDone st)
  /\ _exit done = false
  /\ _exit (stop done) = true
  /\ (exists st : frame toy,
        run shipped no_gui 6 (restart (stop done)) = Returned StopHonoured st
        /\ optimizer_steps st = 0%nat /\ emitted st = [])
  /\ (exists st : frame toy,
        run shipped no_gui 6 (restart done) = Returned EpochsDone st
        /\ optimizer_steps st = 5%nat /\ List.length (emitted st) = 5%nat).
Proof.
  cbv zeta. split; [eexists; vm_compute; reflexivity|].
  split; [reflexivity|]. split; [reflexivity|]. split.
  - eexists. split; [vm_compute; reflexivity|]. split; reflexivity.
  - eexists. split; [vm_compute; reflexivity|]. split; reflexivity.
Qed.

End WorkerClaims.

Section LoopFacts.
Import Config Worker.
Context {B : Backend}.

Lemma batch_nonempty {A : Type} (size : nat) (l : list A) :
  l <> [] -> exists b rest, batch size l = b :: rest.
Proof.
  destruct l as [|a l]; [congruence|]. intros _.
  unfold batch. simpl. eauto.
Qed.

Lemma shuffle_nonempty (k : nat) (l : list (example B)) :
  shuffle_permutes B -> l <> [] -> shuffle B k l <> [].
Proof.
  intros Hs Hl E. specialize (Hs k l). rewrite E in Hs.
  apply Permutation_nil in Hs. contradiction.
Qed.

(** A pass of a live, running loop is the guarded draw. *)
Lemma iteration_running (g : Globals) (st : frame B) :
  (num_epoch st <= epochs (self st))%Z ->
  _exit (self st) = false -> _pause (self st) = false ->
  iteration g st
  = match next_batch (mini_batch_iter st) with
    | Ok (mini_batch, it) => training_step g (set_iter it st) mini_batch
    | Raise _ => except_body g st
    end.
Proof.
  intros Hlive He Hp. unfold iteration.
  replace (num_epoch st <=? epochs (self st))%Z with true
    by (symmetry; now apply Z.leb_le).
  now rewrite He, Hp.
Qed.

(** The [except:] body on a worker with data and positive sizes. *)
Lemma except_body_redraws (g : Globals) (st : frame B) :
  shuffle_permutes B ->
  training_dataset (self st) <> [] ->
  (0 < Ktrain (self st))%Z -> (0 < batch_size (self st))%Z ->
  exists mini_batch rest st1,
    batch (Z.to_nat (batch_size (self st)))
          (shuffle B (shuffles st) (training_dataset (self st)))
      = mini_batch :: rest
    /\ except_body g st = training_step g st1 mini_batch
    /\ num_epoch st1 = (num_epoch st + 1)%Z
    /\ num_batch st1 = Some 0%Z
    /\ mini_batch_iter st1 = Iterator rest
    /\ shuffles st1 = S (shuffles st)
    /\ self st1 = self st
    /\ emitted st1 = emitted st
    /\ optimizer_steps st1 = optimizer_steps st
    /\ start st1 = start st
    /\ clock_reads st1 = clock_reads st.
Proof.
  intros Hs Hds HK Hb.
  destruct (batch_nonempty (Z.to_nat (batch_size (self st)))
              (shuffle B (shuffles st) (training_dataset (self st)))
              (shuffle_nonempty _ _ Hs Hds)) as (mb & rest & E).
  exists mb, rest. eexists. split; [exact E|].
  unfold except_body, new_iterator. cbn [self set_counters shuffles].
  replace (Ktrain (self st) <=? 0)%Z with false by (symmetry; apply Z.leb_gt; lia).
  replace (batch_size (self st) <=? 0)%Z with false by (symmetry; apply Z.leb_gt; lia).
  rewrite E. cbn [next_batch].
  split; [reflexivity|]. repeat split.
Qed.

End LoopFacts.

Section LoopClaims.
Import Config Worker.

(** C10 (as amended).  In a pass of a running loop, whatever exception the
    guarded draw [mini_batch_iter.next()] raises -- the unbound iterator of
    the first pass included -- is caught: provided the training set is not
    empty and the shuffle buffer and batch size are positive, the epoch
    counter is incremented, the batch counter is reset to 0, the dataset is
    reshuffled and re-batched, and the first batch of the new order is
    handed to the training step, with nothing emitted or stepped in
    between. *)
Theorem draw_error_starts_epoch :
  forall (B : Backend) (g : Globals) (st : frame B) (e : exn),
    shuffle_permutes B ->
    (num_epoch st <= epochs (self st))%Z ->
    _exit (self st) = false -> _pause (self st) = false ->
    next_batch (mini_batch_iter st) = Raise e ->
    training_dataset (self st) <> [] ->
    (0 < Ktrain (self st))%Z -> (0 < batch_size (self st))%Z ->
    (forall w : DH_Worker B,
        next_batch (mini_batch_iter (enter_run w))
        = Raise (UnboundLocalError "mini_batch_iter"))
    /\ exists mini_batch rest st1,
        batch (Z.to_nat (batch_size (self st)))
              (shuffle B (shuffles st) (training_dataset (self st)))
          = mini_batch :: rest
        /\ iteration g st = training_step g st1 mini_batch
        /\ num_epoch st1 = (num_epoch st + 1)%Z
        /\ num_batch st1 = Some 0%Z
        /\ mini_batch_iter st1 = Iterator rest
        /\ shuffles st1 = S (shuffles st)
        /\ self st1 = self st
        /\ emitted st1 = emitted st
        /\ optimizer_steps st1 = optimizer_steps st.
Proof.
  intros B g st e Hs Hlive He Hp Hdraw Hds HK Hb.
  split; [reflexivity|].
  destruct (except_body_redraws g st Hs Hds HK Hb)
    as (mb & rest & st1 & E & Hbody & H1 & H2 & H3 & H4 & H5 & H6 & H7 & _).
  exists mb, rest, st1.
  rewrite (iteration_running g st Hlive He Hp), Hdraw.
  repeat split; assumption.
Qed.

Lemma toy_shuffle_permutes : shuffle_permutes toy.
Proof.
  intros k l. simpl. apply Permutation_sym, Permutation_rev.
Defined.

Lemma draw_error_starts_epoch_witness :
  exists (mini_batch : list Z) (rest : list (list Z)) (st1 : frame toy),
    batch 2 (rev [1; 2; 3; 4]%Z) = mini_batch :: rest
    /\ iteration shipped (enter_run (toy_worker [1; 2; 3; 4]%Z 2 2))
       = @training_step toy shipped st1 mini_batch
    /\ num_epoch st1 = 1%Z
    /\ num_batch st1 = Some 0%Z
    /\ mini_batch_iter st1 = @Iterator toy rest
    /\ shuffles st1 = 1%nat
    /\ self st1 = toy_worker [1; 2; 3; 4]%Z 2 2
    /\ emitted st1 = []
    /\ optimizer_steps st1 = 0%nat.
Proof.
  refine (proj2 (draw_error_starts_epoch toy shipped
            (enter_run (toy_worker [1; 2; 3; 4]%Z 2 2))
            (UnboundLocalError "mini_batch_iter")
            toy_shuffle_permutes _ _ _ _ _ _ _)).
  - vm_compute. discriminate.
  - reflexivity.
  - reflexivity.
  - reflexivity.
  - discriminate.
  - reflexivity.
  - reflexivity.
Defined.

(** C10 (as stated) fails: with an empty training set the draw inside the
    [except:] body raises [StopIteration], which leaves the loop. *)
Lemma redraw_error_escapes :
  exists st : frame toy,
    run shipped no_gui 1 (@init toy [] 4 2 2 0%Z 1%Z 1%Z [7%Z])
    = Crashed StopIteration st.
Proof.
  eexists. vm_compute. reflexivity.
Qed.

(** C3 (as amended).  When the forward pass, the loss, the out-of-sample
    evaluation or the gradient of a mini-batch step raises, the exception
    leaves [run]: no later pass is made, and the frame is the one the step
    started from with only the batch counter advanced, so no optimizer step
    is applied, no snapshot is emitted, and the worker object -- flags and
    weights -- is as it was. *)
Theorem step_exception_leaves_run :
  forall (B : Backend) (g : Globals) (gui : nat -> list call)
         (passes k : nat) (st st0 : frame B)
         (mini_batch : list (example B)) (b : Z) (e : exn),
    iteration g (deliver_all (gui k) st) = training_step g st0 mini_batch ->
    num_batch st0 = Some b ->
    forward_backward g (set_counters (num_epoch st0) (Some (b + 1)%Z) st0) mini_batch
      = Raise e ->
    exists st' : frame B,
      run_loop g gui (S passes) k st = Crashed e st'
      /\ self st' = self st0
      /\ emitted st' = emitted st0
      /\ optimizer_steps st' = optimizer_steps st0
      /\ num_batch st' = Some (b + 1)%Z.
Proof.
  intros B g gui passes k st st0 mb b e Hpass Hb Hraise.
  exists (set_counters (num_epoch st0) (Some (b + 1)%Z) st0).
  simpl run_loop. rewrite Hpass. unfold training_step.
  rewrite Hb, Hraise. repeat split.
Qed.

Lemma step_exception_leaves_run_witness :
  exists st' : frame (failing (RuntimeError "forward pass")),
    run_loop shipped no_gui 3 0
      (enter_run (failing_worker (RuntimeError "forward pass") [1; 2; 3; 4]%Z 2 2))
    = Crashed (RuntimeError "forward pass") st'
    /\ self st' = failing_worker (RuntimeError "forward pass") [1; 2; 3; 4]%Z 2 2
    /\ emitted st' = []
    /\ optimizer_steps st' = 0%nat
    /\ num_batch st' = Some 1%Z.
Proof.
  refine (step_exception_leaves_run (failing (RuntimeError "forward pass"))
            shipped no_gui 2 0
            (enter_run (failing_worker (RuntimeError "forward pass") [1; 2; 3; 4]%Z 2 2))
            (set_iter (@Iterator (failing (RuntimeError "forward pass")) [[2; 1]%Z])
               (count_shuffle
                  (set_iter (@Iterator (failing (RuntimeError "forward pass"))
                                       [[4; 3]; [2; 1]]%Z)
                     (set_counters 1 (Some 0%Z)
                        (enter_run
                           (failing_worker (RuntimeError "forward pass")
                              [1; 2; 3; 4]%Z 2 2))))))
            [4; 3]%Z 0%Z (RuntimeError "forward pass") _ _ _).
  - reflexivity.
  - reflexivity.
  - reflexivity.
Defined.

(** C3 (as stated) fails: a run whose forward pass raises one error and a
    run whose forward pass raises another end with worker objects that
    agree on every attribute, and [is_running()] still answers true: the
    error is recorded nowhere in the session. *)
Lemma step_error_not_recorded :
  let e1 := RuntimeError "forward pass" in
  let e2 := ValueError "loss is not finite" in
  let r1 := run shipped no_gui 5 (failing_worker e1 [1; 2; 3; 4]%Z 2 2) in
  let r2 := run shipped no_gui 5 (failing_worker e2 [1; 2; 3; 4]%Z 2 2) in
  (exists st, r1 = Crashed e1 st)
  /\ (exists st, r2 = Crashed e2 st)
  /\ attributes (self (final_frame r1)) = attributes (self (final_frame r2))
  /\ attributes (self (final_frame r1))
     = attributes (failing_worker e1 [1; 2; 3; 4]%Z 2 2)
  /\ is_running (self (final_frame r1)) = true.
Proof.
  cbv zeta. repeat split.
  - eexists. vm_compute. reflexivity.
  - eexists. vm_compute. reflexivity.
Qed.

End LoopClaims.

(* ================================================================= *)
(** ** How many passes and snapshots an undisturbed run makes *)

Section CountFacts.
Import Config Worker.
Context {B : Backend}.

Lemma batch_fuel_length {A : Type} (size : nat) :
  (0 < size)%nat ->
  forall (fuel : nat) (l : list A),
    (List.length l <= fuel)%nat ->
    List.length (batch_fuel fuel size l) = ceil_div (List.length l) size.
Proof.
  intros Hs. unfold ceil_div.
  induction fuel as [|f IH]; intros l Hl.
  - destruct l; [|simpl in Hl; lia]. simpl.
    symmetry. apply Nat.div_small. lia.
  - destruct l as [|a l].
    + simpl. symmetry. apply Nat.div_small. lia.
    + cbn [batch_fuel List.length]. rewrite IH.
      2:{ rewrite length_skipn. cbn [List.length] in *. lia. }
      rewrite length_skipn. cbn [List.length].
      destruct (Nat.le_gt_cases (S (List.length l)) size) as [Hle|Hgt].
      * replace (S (List.length l) - size)%nat with 0%nat by lia.
        rewrite (Nat.div_small (0 + size - 1) size) by lia.
        apply (Nat.div_unique _ _ 1 (S (List.length l) - 1)); lia.
      * replace (S (List.length l) + size - 1)%nat
          with ((S (List.length l) - size + size - 1) + 1 * size)%nat by lia.
        rewrite Nat.div_add by lia. lia.
Qed.

Lemma batch_length {A : Type} (size : nat) (l : list A) :
  (0 < size)%nat -> List.length (batch size l) = ceil_div (List.length l) size.
Proof.
  intros Hs. unfold batch. now apply batch_fuel_length.
Qed.

Lemma deliver_all_nil (st : frame B) : deliver_all [] st = st.
Proof. destruct st. reflexivity. Qed.

Lemma steady_set_iter (w0 : DH_Worker B) (st : frame B) it :
  steady w0 st -> steady w0 (set_iter it st).
Proof. unfold steady. simpl. tauto. Qed.

Lemma training_step_ok (g : Globals) (w0 : DH_Worker B) (st : frame B) mb b :
  never_raises B -> clock_advances B ->
  steady w0 st -> num_batch st = Some b ->
  exists st',
    training_step g st mb = Next st'
    /\ steady w0 st'
    /\ num_epoch st' = num_epoch st
    /\ num_batch st' = Some (b + 1)%Z
    /\ mini_batch_iter st' = mini_batch_iter st
    /\ shuffles st' = shuffles st
    /\ List.length (emitted st') = S (List.length (emitted st))
    /\ optimizer_steps st' = S (optimizer_steps st).
Proof.
  intros (Hm & Hl & Hsub & Hgr) Hclk (He & Hp & Hds & HK & Hbs & Hep & Hstart) Hb.
  unfold training_step. rewrite Hb.
  unfold forward_backward, recorded_loss.
  cbn [self set_counters certainty_equiv num_epoch num_batch].
  destruct (Hm (model (self st)) mb) as [wl ->]. cbn [bind].
  destruct (Hl wl (certainty_equiv st) (loss_param (self st))) as [lv ->]. cbn [bind].
  destruct (Hm (model (self st)) (xtest (self st))) as [pnl ->]. cbn [bind].
  destruct (Hsub (model (self st))) as [dl ->]. cbn [bind].
  match goal with |- context [tape_gradient B ?f ?w] =>
    destruct (Hgr f w) as [gr ->] end.
  cbn [bind].
  eexists. split; [reflexivity|].
  unfold commit. cbn [self set_counters optimizer start clock_reads emitted].
  destruct (apply_gradients B (optimizer st) (model (self st)) gr) as [opt w'].
  replace (time_time B (clock_reads st) - start st >? 0)%Z with true
    by (symmetry; apply Z.gtb_lt; lia).
  unfold steady. cbn.
  rewrite length_app. cbn. repeat split; try assumption; try lia.
  apply Hclk.
Qed.

Lemma run_loop_next (g : Globals) (k p : nat) (st st1 : frame B) :
  iteration g st = Next st1 ->
  run_loop g no_gui (S p) k st = run_loop g no_gui p (S k) st1.
Proof.
  intros H. cbn [run_loop]. unfold no_gui. now rewrite deliver_all_nil, H.
Qed.

(** The batches an iterator still holds are consumed one pass each. *)
Lemma drain (g : Globals) (w0 : DH_Worker B) :
  never_raises B -> clock_advances B ->
  forall (bs : list (list (example B))) (k p : nat) (st : frame B) (b : Z),
    steady w0 st ->
    (num_epoch st <= epochs w0)%Z ->
    mini_batch_iter st = Iterator bs ->
    num_batch st = Some b ->
    exists st',
      run_loop g no_gui (List.length bs + p) k st
      = run_loop g no_gui p (k + List.length bs) st'
      /\ steady w0 st'
      /\ num_epoch st' = num_epoch st
      /\ mini_batch_iter st' = Iterator []
      /\ List.length (emitted st') = (List.length (emitted st) + List.length bs)%nat
      /\ optimizer_steps st' = (optimizer_steps st + List.length bs)%nat.
Proof.
  intros Hnr Hclk. induction bs as [|b0 bs IH]; intros k p st b Hst Hlive Hit Hb.
  - exists st. cbn [List.length]. rewrite !Nat.add_0_r.
    split; [reflexivity|]. split; [exact Hst|]. repeat split; assumption.
  - pose proof Hst as (He & Hp & _ & _ & _ & Hep & _).
    assert (Hpass : iteration g st = training_step g (set_iter (Iterator bs) st) b0).
    { rewrite iteration_running by (rewrite ?Hep; assumption).
      now rewrite Hit. }
    destruct (training_step_ok g w0 (set_iter (Iterator bs) st) b0 b Hnr Hclk
                (steady_set_iter w0 st _ Hst) Hb)
      as (st1 & Hstep & Hst1 & He1 & Hb1 & Hit1 & _ & Hem1 & Hop1).
    destruct (IH (S k) p st1 (b + 1)%Z Hst1) as (st' & Hrun & Hst' & He' & Hit' & Hem' & Hop').
    + rewrite He1. exact Hlive.
    + rewrite Hit1. reflexivity.
    + exact Hb1.
    + exists st'. cbn [List.length Nat.add].
      rewrite (run_loop_next g k _ st st1) by (rewrite Hpass; exact Hstep).
      rewrite Hrun. replace (k + S (List.length bs))%nat with (S k + List.length bs)%nat by lia.
      cbn [set_iter num_epoch emitted optimizer_steps] in *.
      split; [reflexivity|]. split; [exact Hst'|].
      repeat split; try assumption; try lia.
Qed.

(** One full epoch: the pass whose draw fails, then one pass per further
    batch. *)
Lemma one_epoch (g : Globals) (w0 : DH_Worker B) :
  never_raises B -> clock_advances B -> shuffle_permutes B ->
  training_dataset w0 <> [] -> (0 < Ktrain w0)%Z -> (0 < batch_size w0)%Z ->
  forall (k p : nat) (st : frame B) (e : exn),
    steady w0 st ->
    (num_epoch st < epochs w0)%Z ->
    next_batch (mini_batch_iter st) = Raise e ->
    let n := ceil_div (List.length (training_dataset w0)) (Z.to_nat (batch_size w0)) in
    exists st',
      run_loop g no_gui (n + p) k st = run_loop g no_gui p (k + n) st'
      /\ steady w0 st'
      /\ num_epoch st' = (num_epoch st + 1)%Z
      /\ mini_batch_iter st' = Iterator []
      /\ List.length (emitted st') = (List.length (emitted st) + n)%nat
      /\ optimizer_steps st' = (optimizer_steps st + n)%nat.
Proof.
  intros Hnr Hclk Hsh Hds HK Hbs k p st e Hst Hlive Hdraw n.
  pose proof Hst as (He & Hp & Hds' & HK' & Hbs' & Hep & Hstart).
  destruct (except_body_redraws g st Hsh) as
    (mb & rest & st1 & E & Hbody & H1 & H2 & H3 & H4 & H5 & H6 & H7 & H8 & H9);
    try (rewrite ?Hds', ?HK', ?Hbs'; assumption).
  assert (Hn : n = S (List.length rest)).
  { subst n. rewrite <- (Permutation_length (Hsh (shuffles st) (training_dataset w0))).
    rewrite <- batch_length by lia.
    rewrite <- Hds', <- Hbs', E. reflexivity. }
  assert (Hst1 : steady w0 st1).
  { unfold steady. rewrite H5, H8, H9. exact Hst. }
  destruct (training_step_ok g w0 st1 mb 0%Z Hnr Hclk Hst1 H2)
    as (st2 & Hstep & Hst2 & He2 & Hb2 & Hit2 & _ & Hem2 & Hop2).
  rewrite H6 in Hem2. rewrite H7 in Hop2.
  destruct (drain g w0 Hnr Hclk rest (S k) p st2 (0 + 1)%Z Hst2)
    as (st' & Hrun & Hst' & He' & Hit' & Hem' & Hop').
  - rewrite He2, H1. lia.
  - rewrite Hit2. exact H3.
  - exact Hb2.
  - exists st'. rewrite Hn. cbn [Nat.add].
    rewrite (run_loop_next g k _ st st2).
    2:{ rewrite iteration_running by (rewrite ?Hep; assumption || lia).
        rewrite Hdraw, Hbody. exact Hstep. }
    rewrite Hrun. replace (k + S (List.length rest))%nat with (S k + List.length rest)%nat by lia.
    split; [reflexivity|]. split; [exact Hst'|].
    repeat split; try assumption; try lia.
Qed.

(** [j] full epochs in a row. *)
Lemma full_epochs (g : Globals) (w0 : DH_Worker B) :
  never_raises B -> clock_advances B -> shuffle_permutes B ->
  training_dataset w0 <> [] -> (0 < Ktrain w0)%Z -> (0 < batch_size w0)%Z ->
  let n := ceil_div (List.length (training_dataset w0)) (Z.to_nat (batch_size w0)) in
  forall (j k p : nat) (st : frame B) (e : exn),
    steady w0 st ->
    (num_epoch st + Z.of_nat j <= epochs w0)%Z ->
    next_batch (mini_batch_iter st) = Raise e ->
    exists st' e',
      run_loop g no_gui (j * n + p) k st = run_loop g no_gui p (k + j * n) st'
      /\ steady w0 st'
      /\ num_epoch st' = (num_epoch st + Z.of_nat j)%Z
      /\ next_batch (mini_batch_iter st') = Raise e'
      /\ List.length (emitted st') = (List.length (emitted st) + j * n)%nat
      /\ optimizer_steps st' = (optimizer_steps st + j * n)%nat.
Proof.
  intros Hnr Hclk Hsh Hds HK Hbs n.
  induction j as [|j IH]; intros k p st e Hst Hlive Hdraw.
  - exists st, e. cbn [Nat.mul Nat.add]. rewrite !Nat.add_0_r, Z.add_0_r.
    split; [reflexivity|]. split; [exact Hst|]. repeat split; assumption.
  - destruct (one_epoch g w0 Hnr Hclk Hsh Hds HK Hbs k (j * n + p) st e Hst
                ltac:(lia) Hdraw)
      as (st1 & Hrun1 & Hst1 & He1 & Hit1 & Hem1 & Hop1).
    fold n in Hrun1, Hem1, Hop1.
    destruct (IH (k + n)%nat p st1 StopIteration Hst1) as
      (st' & e' & Hrun & Hst' & He' & Hit' & Hem' & Hop').
    + lia.
    + rewrite Hit1. reflexivity.
    + exists st', e'.
      replace (S j * n + p)%nat with (n + (j * n + p))%nat by lia.
      rewrite Hrun1, Hrun.
      replace (k + n + j * n)%nat with (k + S j * n)%nat by lia.
      split; [reflexivity|]. split; [exact Hst'|].
      repeat split; try assumption; lia.
Qed.

Lemma steady_enter_run (w : DH_Worker B) :
  clock_advances B -> _exit w = false -> _pause w = false ->
  steady w (enter_run w).
Proof.
  intros Hclk He Hp. unfold steady. cbn. repeat split; try assumption.
  apply Hclk.
Qed.

(** The whole undisturbed run: [E] full epochs, one more batch, and the
    loop test fails. *)
Lemma run_to_completion (g : Globals) (w : DH_Worker B) (E : nat) :
  never_raises B -> clock_advances B -> shuffle_permutes B ->
  _exit w = false -> _pause w = false ->
  epochs w = Z.of_nat E ->
  training_dataset w <> [] -> (0 < Ktrain w)%Z -> (0 < batch_size w)%Z ->
  let n := ceil_div (List.length (training_dataset w)) (Z.to_nat (batch_size w)) in
  exists st' : frame B,
    run g no_gui (E * n + 2) w = Returned EpochsDone st'
    /\ List.length (emitted st') = (E * n + 1)%nat
    /\ optimizer_steps st' = (E * n + 1)%nat
    /\ num_epoch st' = (Z.of_nat E + 1)%Z.
Proof.
  intros Hnr Hclk Hsh He Hp HE Hds HK Hbs n.
  pose proof (steady_enter_run w Hclk He Hp) as Hst0.
  destruct (full_epochs g w Hnr Hclk Hsh Hds HK Hbs E 0 2 (enter_run w)
              (UnboundLocalError "mini_batch_iter") Hst0)
    as (st1 & e1 & Hrun1 & Hst1 & He1 & Hit1 & Hem1 & Hop1).
  { cbn [num_epoch enter_run]. lia. }
  { reflexivity. }
  fold n in Hrun1, Hem1, Hop1.
  cbn [num_epoch enter_run emitted optimizer_steps List.length Nat.add] in *.
  pose proof Hst1 as (He1' & Hp1' & Hds1 & HK1 & Hbs1 & Hep1 & _).
  destruct (except_body_redraws g st1 Hsh) as
    (mb & rest & st2 & _ & Hbody & H1 & H2 & H3 & H4 & H5 & H6 & H7 & H8 & H9);
    try (rewrite ?Hds1, ?HK1, ?Hbs1; assumption).
  assert (Hst2 : steady w st2).
  { unfold steady. rewrite H5, H8, H9. exact Hst1. }
  destruct (training_step_ok g w st2 mb 0%Z Hnr Hclk Hst2 H2)
    as (st3 & Hstep & Hst3 & He3 & Hb3 & Hit3 & _ & Hem3 & Hop3).
  rewrite H6 in Hem3. rewrite H7 in Hop3.
  exists st3. unfold run. rewrite Hrun1.
  rewrite (run_loop_next g _ 1 st1 st3).
  2:{ rewrite iteration_running by (rewrite ?Hep1; assumption || lia).
      rewrite Hit1, Hbody. exact Hstep. }
  cbn [run_loop]. unfold no_gui at 1. rewrite deliver_all_nil.
  unfold iteration.
  pose proof Hst3 as (_ & _ & _ & _ & _ & Hep3 & _).
  replace (num_epoch st3 <=? epochs (self st3))%Z with false
    by (symmetry; apply Z.leb_gt; lia).
  cbn [negb]. repeat split; lia.
Qed.

End CountFacts.

Section CountClaims.
Import Config Worker.

(** C2 (what the code does instead).  With [epochs = 2], [K > 0] training
    paths and batch size [B > 0], a run that nobody pauses or stops, whose
    computations do not raise and whose clock advances, returns on its own
    after [2 * ceil(K/B) + 2] passes -- but it has then emitted
    [2 * ceil(K/B) + 1] snapshots and applied as many optimizer steps, one
    more than two epochs hold: the loop test [num_epoch <= epochs] lets the
    first batch of a third epoch through. *)
Theorem two_epochs_emit_one_extra :
  forall (B : Backend) (g : Globals) (w : DH_Worker B) (K Bsz : nat),
    never_raises B -> clock_advances B -> shuffle_permutes B ->
    _exit w = false -> _pause w = false ->
    epochs w = 2%Z ->
    List.length (training_dataset w) = K ->
    Ktrain w = Z.of_nat K -> batch_size w = Z.of_nat Bsz ->
    (0 < K)%nat -> (0 < Bsz)%nat ->
    exists st' : frame B,
      run g no_gui (2 * ceil_div K Bsz + 2) w = Returned EpochsDone st'
      /\ List.length (emitted st') = (2 * ceil_div K Bsz + 1)%nat
      /\ optimizer_steps st' = (2 * ceil_div K Bsz + 1)%nat
      /\ num_epoch st' = 3%Z.
Proof.
  intros B g w K Bsz Hnr Hclk Hsh He Hp Hep HK HKt Hbs HKpos Hbpos.
  assert (Hds : training_dataset w <> []).
  { intros E. rewrite E in HK. simpl in HK. lia. }
  destruct (run_to_completion g w 2 Hnr Hclk Hsh He Hp Hep Hds
              ltac:(lia) ltac:(lia)) as (st' & Hrun & Hem & Hop & Hne).
  rewrite HK, Hbs, Nat2Z.id in Hrun, Hem, Hop.
  exists st'. repeat split; assumption.
Qed.

Lemma toy_never_raises : never_raises toy.
Proof.
  repeat split; intros; eexists; reflexivity.
Defined.

Lemma toy_clock_advances : clock_advances toy.
Proof.
  intros k. simpl. lia.
Defined.

Lemma two_epochs_emit_one_extra_witness :
  exists st' : frame toy,
    run shipped no_gui 6 (toy_worker [1; 2; 3; 4]%Z 2 2) = Returned EpochsDone st'
    /\ List.length (emitted st') = 5%nat
    /\ optimizer_steps st' = 5%nat
    /\ num_epoch st' = 3%Z.
Proof.
  refine (two_epochs_emit_one_extra toy shipped (toy_worker [1; 2; 3; 4]%Z 2 2) 4 2
            toy_never_raises toy_clock_advances toy_shuffle_permutes _ _ _ _ _ _ _ _).
  - reflexivity.
  - reflexivity.
  - reflexivity.
  - reflexivity.
  - reflexivity.
  - reflexivity.
  - lia.
  - lia.
Defined.

(** The snapshots of that run, by (epoch, batch): the fifth belongs to a
    third epoch. *)
Example two_epochs_trace :
  map (fun s => (at_epoch s, at_batch s))
      (emitted (final_frame (run shipped no_gui 6 (toy_worker [1; 2; 3; 4]%Z 2 2))))
  = [(1, 1); (1, 2); (2, 1); (2, 2); (3, 1)]%Z.
Proof. vm_compute. reflexivity. Qed.

End CountClaims.

(* ================================================================= *)
(** ** The loss of a step *)

Section LossFacts.
Import Config Worker.
Open Scope R_scope.

Lemma total_scale (k : R) (f : R -> R) (l : list R) :
  Loss.total (map (fun x => k * f x) l) = k * Loss.total (map f l).
Proof.
  induction l as [|a l IH]; simpl; [ring|]. rewrite IH. ring.
Qed.

Lemma total_pos (f : R -> R) (l : list R) :
  l <> [] -> (forall x, 0 < f x) -> 0 < Loss.total (map f l).
Proof.
  intros Hl Hf. destruct l as [|a l]; [congruence|]. clear Hl.
  revert a. induction l as [|b l IH]; intros a; simpl.
  - specialize (Hf a). lra.
  - specialize (IH b). specialize (Hf a). simpl in IH. lra.
Qed.

Lemma mean_scale (k : R) (f : R -> R) (l : list R) :
  Loss.mean (map (fun x => k * f x) l) = k * Loss.mean (map f l).
Proof.
  unfold Loss.mean. rewrite total_scale, !length_map. unfold Rdiv. ring.
Qed.

Lemma mean_pos (f : R -> R) (l : list R) :
  l <> [] -> (forall x, 0 < f x) -> 0 < Loss.mean (map f l).
Proof.
  intros Hl Hf. unfold Loss.mean. apply Rdiv_lt_0_compat.
  - now apply total_pos.
  - rewrite length_map. apply lt_0_INR.
    destruct l; [congruence|simpl; lia].
Qed.

(** Neither the recorded loss nor a whole pass looks at [loss_type]. *)
Lemma loss_type_never_read (B : Backend) (s : string) (g : Globals) (st : frame B) :
  (forall mb w, recorded_loss (set_loss_type s g) st mb w
                = bind (model_func B w mb)
                       (fun wealth => Entropy B wealth (certainty_equiv st)
                                              (loss_param (self st))))
  /\ iteration (set_loss_type s g) st = iteration g st.
Proof.
  split; reflexivity.
Qed.

Lemma entropy_below_cvar :
  Loss.Entropy [0; 2] 0 (1 / 2) < Loss.CVaR [0; 2] 0 (1 / 2).
Proof.
  unfold Loss.Entropy, Loss.CVaR, Loss.mean. cbn [map Loss.total fold_right List.length].
  replace (INR 2) with 2 by (simpl; ring).
  assert (M1 : Rmax (- 0 - 0) 0 = 0) by (apply Rmax_right; lra).
  assert (M2 : Rmax (Ropp 2 - 0) 0 = 0) by (apply Rmax_right; lra).
  rewrite M1, M2.
  replace (- (1 / 2) * 0) with 0 by field.
  replace (- (1 / 2) * 2) with (- 1) by field.
  rewrite exp_0.
  assert (He : exp (- 1) < 1).
  { rewrite <- exp_0. apply exp_increasing. lra. }
  assert (Hp : 0 < exp (- 1)) by apply exp_pos.
  assert (Hl : ln ((1 + (exp (- 1) + 0)) / 2) < 0).
  { apply Rlt_le_trans with (ln 1); [apply ln_increasing; lra | rewrite ln_1; lra]. }
  lra.
Qed.

End LossFacts.

Section LossClaims.
Import Config Worker.
Open Scope R_scope.

(** C5 (what the code does instead).  With the configuration flag
    [loss_type] set to "CVaR", the loss the step records and reports for
    the batch wealth [0, 2] and loss parameter [1/2] is still the entropic
    measure of that wealth, which is not the value CVaR gives it: the flag
    is never read and [Entropy] is always the loss that is minimized. *)
Theorem loss_under_CVaR_flag :
  let g := set_loss_type "CVaR" shipped in
  let w := @init Loss.reals [0; 2] 2 2 2 tt (1 / 2) (1 / 100) [0; 2] in
  let st := set_counters 1 (Some 1%Z) (enter_run w) in
  loss_type g = "CVaR"%string
  /\ recorded_loss g st [0; 2] tt = Ok (Loss.Entropy [0; 2] 0 (1 / 2))
  /\ (exists snap grads,
        forward_backward g st [0; 2] = Ok (snap, grads)
        /\ loss snap = Loss.Entropy [0; 2] 0 (1 / 2))
  /\ Loss.Entropy [0; 2] 0 (1 / 2) <> Loss.CVaR [0; 2] 0 (1 / 2).
Proof.
  cbv zeta. split; [reflexivity|]. split; [reflexivity|]. split.
  - eexists. eexists. split; reflexivity.
  - pose proof entropy_below_cvar. lra.
Qed.

(** C8.  For a non-empty wealth vector [W], risk aversion [lambda > 0] and
    a constant [c], the entropic loss
    (1/lambda) log(mean(exp(-lambda W))) of [W + c] is the loss of [W]
    minus [c]. *)
Theorem Entropy_add_const :
  forall (W : list R) (w lambda c : R),
    W <> [] -> 0 < lambda ->
    Loss.Entropy (Loss.add_const W c) w lambda = Loss.Entropy W w lambda - c.
Proof.
  intros W w lambda c HW Hl.
  unfold Loss.Entropy, Loss.add_const. rewrite map_map.
  rewrite (map_ext (fun x => exp (- lambda * (x + c)))
                   (fun x => exp (- lambda * c) * exp (- lambda * x))).
  2:{ intros x. rewrite <- exp_plus. f_equal. ring. }
  rewrite mean_scale.
  rewrite ln_mult.
  - rewrite ln_exp. field. lra.
  - apply exp_pos.
  - apply mean_pos; [exact HW|]. intros x. apply exp_pos.
Qed.

Lemma Entropy_add_const_witness :
  Loss.Entropy (Loss.add_const [0; 2] 1) 0 (1 / 2)
  = Loss.Entropy [0; 2] 0 (1 / 2) - 1.
Proof.
  apply (Entropy_add_const [0; 2] 0 (1 / 2) 1).
  - discriminate.
  - lra.
Defined.

End LossClaims.

(* ================================================================= *)
(** ** The delta-only sub-model *)

Section SubModelClaims.
Import SubModel.

(** C4 (what the code does instead).  For a recurrent network that has
    both layers the construction looks for -- here an input layer followed
    by "dense_0_15", a further dense layer and "delta_15" -- no sub-model is
    built: the first round of the loop raises [NameError] for
    [flag_add_layer_for_submodel], a name that is assigned nowhere, although
    no expected layer is absent. *)
Theorem recurrent_construction_fails_with_layers_present :
  let layers := [{| name := "prc_0"; ident := 0 |};
                 {| name := "dense_0_15"; ident := 1 |};
                 {| name := "dense_1_15"; ident := 2 |};
                 {| name := "delta_15"; ident := 3 |}] in
  ~ expected_layer_absent days_from_today layers
  /\ Define_DH_Delta_Strategy_Model days_from_today "recurrent" layers
     = Raise (NameError "flag_add_layer_for_submodel").
Proof.
  cbv zeta. split.
  - intros [H|H]; apply H; simpl; tauto.
  - reflexivity.
Qed.

End SubModelClaims.

(* ================================================================= *)
(** * Further properties of the code *)

(** ** Invariants of a run *)

Section TraceFacts.
Import Config Worker Trace.
Context {B : Backend}.

Lemma sorted_snoc (l : list (Z * Z)) (x : Z * Z) :
  StronglySorted label_lt l -> Forall (fun a => label_lt a x) l ->
  StronglySorted label_lt (l ++ [x]).
Proof.
  induction l as [|a l IH]; intros Hs Hf; simpl.
  - constructor; constructor.
  - inversion Hs as [|? ? Hs' Ha]; subst. inversion Hf as [|? ? Hax Hf']; subst.
    constructor; [now apply IH|].
    apply Forall_app. split; [exact Ha|]. constructor; [exact Hax|constructor].
Qed.

Lemma forward_backward_label (g : Globals) (st : frame B) mb snap gr :
  forward_backward g st mb = Ok (snap, gr) ->
  at_epoch snap = num_epoch st
  /\ at_batch snap = match num_batch st with Some b => b | None => 0%Z end.
Proof.
  unfold forward_backward.
  destruct (recorded_loss g st mb (model (self st))); [|discriminate]. cbn [bind].
  destruct (model_func B _ _); [|discriminate]. cbn [bind].
  destruct (submodel_func B _); [|discriminate]. cbn [bind].
  destruct (tape_gradient B _ _); [|discriminate]. cbn [bind].
  intros H. injection H as <- _. now split.
Qed.

Lemma deliver_keeps_attributes (cs : list call) (w : DH_Worker B) :
  config (fold_left deliver cs w) = config w
  /\ model (fold_left deliver cs w) = model w.
Proof.
  revert w. induction cs as [|c cs IH]; intros w; simpl; [now split|].
  destruct (IH (deliver w c)) as [-> ->]. destruct c; now split.
Qed.

Lemma invariant_deliver (w0 : DH_Worker B) (cs : list call) (st : frame B) :
  run_invariant w0 st -> run_invariant w0 (deliver_all cs st).
Proof.
  unfold run_invariant, deliver_all. cbn [self set_self num_epoch emitted optimizer_steps num_batch].
  destruct (deliver_keeps_attributes cs (self st)) as [-> ->]. tauto.
Qed.

Lemma invariant_step (g : Globals) (w0 : DH_Worker B) (st : frame B) mb :
  run_invariant w0 st -> run_invariant w0 (outcome_frame (training_step g st mb)).
Proof.
  intros Hinv. unfold training_step.
  destruct (num_batch st) as [b|] eqn:Hb; [|exact Hinv].
  destruct Hinv as (Hc & He & Hlen & Hmod & Hs & Hpos & Hcur).
  rewrite Hb in Hcur. destruct Hcur as (Hb0 & He1 & Hcur).
  set (st1 := set_counters (num_epoch st) (Some (b + 1)%Z) st).
  assert (Hcur1 : Forall (not_after (num_epoch st) (b + 1)) (map label (emitted st))).
  { eapply Forall_impl; [|exact Hcur]. intros a [H|[H1 H2]]; [now left|right; split; lia]. }
  destruct (forward_backward g st1 mb) as [[snap gr]|e] eqn:Hfb.
  - apply forward_backward_label in Hfb as [Hse Hsb].
    cbn [st1 set_counters num_epoch num_batch] in Hse, Hsb.
    cbn [outcome_frame]. unfold commit.
    cbn [st1 set_counters self optimizer start clock_reads emitted optimizer_steps
         num_epoch num_batch mini_batch_iter shuffles sleeps certainty_equiv].
    destruct (apply_gradients B (optimizer st) (model (self st)) gr) as [opt w'].
    unfold run_invariant.
    cbn [self num_epoch emitted optimizer_steps num_batch set_model
         training_dataset Ktrain batch_size epochs loss_param learning_rate xtest
         config model].
    split; [exact Hc|]. split; [exact He|].
    destruct (time_time B (clock_reads st) - start st >? 0)%Z.
    + rewrite length_app, map_app. cbn [List.length map].
      split; [lia|]. split; [intros; lia|].
      split.
      { apply sorted_snoc; [exact Hs|].
        eapply Forall_impl; [|exact Hcur]. unfold label, label_lt. cbn [fst snd].
        rewrite Hse, Hsb. intros a [H|[H1 H2]]; [now left|right; split; lia]. }
      split.
      { apply Forall_app. split; [exact Hpos|].
        constructor; [|constructor]. unfold label. cbn [fst snd]. lia. }
      split; [lia|]. split; [exact He1|].
      apply Forall_app. split; [exact Hcur1|].
      constructor; [|constructor]. right. unfold label. cbn [fst snd]. lia.
    + split; [lia|]. split; [intros; lia|].
      split; [exact Hs|]. split; [exact Hpos|].
      split; [lia|]. split; [exact He1|exact Hcur1].
  - cbn [outcome_frame]. unfold run_invariant.
    cbn [st1 set_counters self num_epoch emitted optimizer_steps num_batch].
    repeat (split; [assumption|]). split; [lia|]. split; assumption.
Qed.

Lemma invariant_except_body (g : Globals) (w0 : DH_Worker B) (st : frame B) :
  (num_epoch st <= epochs (self st))%Z ->
  run_invariant w0 st -> run_invariant w0 (outcome_frame (except_body g st)).
Proof.
  intros Hlive Hinv.
  assert (H1 : run_invariant w0 (set_counters (num_epoch st + 1)%Z (Some 0%Z) st)).
  { destruct Hinv as (Hc & He & Hlen & Hmod & Hs & Hpos & Hcur).
    assert (Hep : epochs (self st) = epochs w0).
    { unfold config in Hc. now injection Hc. }
    unfold run_invariant. cbn [set_counters self num_epoch emitted optimizer_steps num_batch].
    split; [exact Hc|]. split; [lia|]. split; [exact Hlen|].
    split; [exact Hmod|]. split; [exact Hs|]. split; [exact Hpos|].
    split; [lia|]. split; [lia|].
    destruct (num_batch st) as [b|].
    - destruct Hcur as (_ & _ & Hcur). eapply Forall_impl; [|exact Hcur].
      intros a [H|[H _]]; left; lia.
    - rewrite Hcur. constructor. }
  unfold except_body.
  destruct (new_iterator _) as [it|e]; [|exact H1].
  destruct (next_batch it) as [[mb it']|e]; [|exact H1].
  apply invariant_step. exact H1.
Qed.

Lemma invariant_iteration (g : Globals) (w0 : DH_Worker B) (st : frame B) :
  run_invariant w0 st -> run_invariant w0 (outcome_frame (iteration g st)).
Proof.
  intros Hinv. unfold iteration.
  destruct (num_epoch st <=? epochs (self st))%Z eqn:Hlive; cbn [negb]; [|exact Hinv].
  apply Z.leb_le in Hlive.
  destruct (_exit (self st)); [exact Hinv|].
  destruct (_pause (self st)); cbn [negb]; [exact Hinv|].
  destruct (next_batch (mini_batch_iter st)) as [[mb it]|e].
  - apply invariant_step. exact Hinv.
  - now apply invariant_except_body.
Qed.

Lemma invariant_run_loop (g : Globals) (w0 : DH_Worker B) (gui : nat -> list call) :
  forall (passes k : nat) (st : frame B),
    run_invariant w0 st ->
    run_invariant w0 (final_frame (run_loop g gui passes k st)).
Proof.
  induction passes as [|n IH]; intros k st Hinv; cbn [run_loop]; [exact Hinv|].
  pose proof (invariant_iteration g w0 _ (invariant_deliver w0 (gui k) st Hinv)) as H.
  destruct (iteration g (deliver_all (gui k) st)) as [st'|r st'|e st'];
    cbn [outcome_frame] in H; [now apply IH|exact H|exact H].
Qed.

Lemma invariant_enter_run (w : DH_Worker B) : run_invariant w (enter_run w).
Proof.
  unfold run_invariant. cbn. repeat split; try lia; constructor.
Qed.

Lemma invariant_run (g : Globals) (gui : nat -> list call) (passes : nat)
  (w : DH_Worker B) :
  run_invariant w (final_frame (run g gui passes w)).
Proof.
  unfold run. apply invariant_run_loop, invariant_enter_run.
Qed.

End TraceFacts.

Section TraceExtras.
Import Config Worker Trace.

(** X1.  Whatever the GUI thread does and whatever the backend computes,
    the snapshots a run has emitted carry strictly increasing
    (epoch, batch) labels: no label is emitted twice and none goes back. *)
Theorem snapshot_labels_increase :
  forall (B : Backend) (g : Globals) (gui : nat -> list call) (passes : nat)
         (w : DH_Worker B),
    StronglySorted label_lt
      (map label (emitted (final_frame (run g gui passes w)))).
Proof.
  intros B g gui passes w.
  exact (proj1 (proj2 (proj2 (proj2 (proj2 (invariant_run g gui passes w)))))).
Qed.

(** X2.  Every snapshot a run emits is labelled with an epoch between 1 and
    [epochs + 1] and a batch number of at least 1. *)
Theorem snapshot_labels_bounded :
  forall (B : Backend) (g : Globals) (gui : nat -> list call) (passes : nat)
         (w : DH_Worker B),
    Forall (fun s => (1 <= at_epoch s <= epochs w + 1)%Z /\ (1 <= at_batch s)%Z)
           (emitted (final_frame (run g gui passes w))).
Proof.
  intros B g gui passes w.
  destruct (invariant_run g gui passes w) as (_ & He & _ & _ & _ & Hpos & Hcur).
  set (st := final_frame (run g gui passes w)) in *.
  apply Forall_forall. intros s Hs.
  assert (Hin : In (label s) (map label (emitted st))) by now apply in_map.
  rewrite Forall_forall in Hpos. destruct (Hpos _ Hin) as [H1 H2].
  unfold label in H1, H2. cbn [fst snd] in H1, H2.
  destruct (num_batch st) as [b|].
  - destruct Hcur as (_ & _ & Hcur). rewrite Forall_forall in Hcur.
    specialize (Hcur _ Hin). unfold not_after, label in Hcur. cbn [fst snd] in Hcur.
    lia.
  - rewrite Hcur in Hs. contradiction.
Qed.

(** X3.  A run never changes what configures the session -- the training
    set, the shuffle buffer, the batch size, the number of epochs, the loss
    parameter, the learning rate and the test set -- and it never has more
    snapshots than optimizer steps. *)
Theorem run_keeps_configuration :
  forall (B : Backend) (g : Globals) (gui : nat -> list call) (passes : nat)
         (w : DH_Worker B),
    let st := final_frame (run g gui passes w) in
    config (self st) = config w
    /\ (List.length (emitted st) <= optimizer_steps st)%nat.
Proof.
  intros B g gui passes w st.
  destruct (invariant_run g gui passes w) as (Hc & _ & Hlen & _).
  now split.
Qed.

(** X4.  The weights change only through optimizer steps: a run that has
    applied none leaves the model as it received it. *)
Theorem weights_change_only_by_steps :
  forall (B : Backend) (g : Globals) (gui : nat -> list call) (passes : nat)
         (w : DH_Worker B),
    optimizer_steps (final_frame (run g gui passes w)) = 0%nat ->
    model (self (final_frame (run g gui passes w))) = model w.
Proof.
  intros B g gui passes w.
  exact (proj1 (proj2 (proj2 (proj2 (invariant_run g gui passes w))))).
Qed.

Lemma weights_change_only_by_steps_witness :
  model (self (final_frame
                 (run shipped (fun _ => [CallPause]) 4 (toy_worker [1; 2; 3]%Z 2 2))))
  = 0%Z.
Proof.
  apply (weights_change_only_by_steps toy shipped (fun _ => [CallPause]) 4
           (toy_worker [1; 2; 3]%Z 2 2)).
  vm_compute. reflexivity.
Defined.

(** X5.  While the worker is paused and no stop is pending, a pass of a
    live loop only sleeps: after any number of passes the loop is still
    looping, it has slept once per pass, and the worker, the counters, the
    iterator, the snapshots and the optimizer steps are untouched. *)
Theorem paused_loop_only_sleeps :
  forall (B : Backend) (g : Globals) (n k : nat) (st : frame B),
    (num_epoch st <= epochs (self st))%Z ->
    _exit (self st) = false -> _pause (self st) = true ->
    exists st' : frame B,
      run_loop g no_gui n k st = StillLooping st'
      /\ sleeps st' = (sleeps st + n)%nat
      /\ self st' = self st
      /\ num_epoch st' = num_epoch st
      /\ num_batch st' = num_batch st
      /\ mini_batch_iter st' = mini_batch_iter st
      /\ emitted st' = emitted st
      /\ optimizer_steps st' = optimizer_steps st.
Proof.
  intros B g n. induction n as [|n IH]; intros k st Hlive He Hp.
  - exists st. cbn [run_loop]. rewrite Nat.add_0_r. repeat split.
  - assert (Hpass : iteration g st = Next (sleep st)).
    { unfold iteration.
      replace (num_epoch st <=? epochs (self st))%Z with true
        by (symmetry; now apply Z.leb_le).
      cbn [negb]. now rewrite He, Hp. }
    destruct (IH (S k) (sleep st) Hlive He Hp)
      as (st' & Hrun & Hs & Hself & H1 & H2 & H3 & H4 & H5).
    exists st'. rewrite (run_loop_next g k n st (sleep st) Hpass).
    cbn [sleep sleeps self num_epoch num_batch mini_batch_iter emitted
         optimizer_steps] in *.
    repeat split; try assumption. lia.
Qed.

Lemma paused_loop_only_sleeps_witness :
  exists st' : frame toy,
    run_loop shipped no_gui 5 0 (enter_run (pause (toy_worker [1; 2; 3]%Z 2 2)))
    = StillLooping st'
    /\ sleeps st' = 5%nat
    /\ self st' = pause (toy_worker [1; 2; 3]%Z 2 2)
    /\ num_epoch st' = 0%Z
    /\ num_batch st' = None
    /\ mini_batch_iter st' = Unbound
    /\ emitted st' = []
    /\ optimizer_steps st' = 0%nat.
Proof.
  apply (paused_loop_only_sleeps toy shipped 5 0
           (enter_run (pause (toy_worker [1; 2; 3]%Z 2 2)))).
  - vm_compute. discriminate.
  - reflexivity.
  - reflexivity.
Defined.

End TraceExtras.

Section LoopExtras.
Import Config Worker Trace.

Lemma flags_after_calls_aux (B : Backend) (cs : list call) :
  forall w : DH_Worker B,
    _exit (fold_left deliver cs w) = _exit w || existsb is_stop_call cs
    /\ _pause (fold_left deliver cs w)
       = match find (fun c => negb (is_stop_call c)) (rev cs) with
         | Some CallPause => true
         | Some CallCont => false
         | _ => _pause w
         end.
Proof.
  induction cs as [|c cs IH] using rev_ind; intros w.
  - cbn. now rewrite orb_false_r.
  - rewrite fold_left_app, existsb_app, rev_app_distr. cbn [fold_left rev app].
    destruct (IH w) as [He Hp].
    destruct c; cbn [deliver pause cont stop set_flags _exit _pause find
                     is_stop_call negb existsb].
    + rewrite He, orb_false_r. now split.
    + rewrite He, orb_false_r. now split.
    + rewrite !orb_true_r. split; [reflexivity|exact Hp].
Qed.

(** X6.  After any sequence of calls from the GUI thread, [_exit] is set
    exactly when it was set before or one of the calls was [stop()] --
    neither [pause()] nor [cont()] withdraws a stop request -- and [_pause]
    is what the last [pause()] or [cont()] call made it, [stop()] calls not
    counting. *)
Theorem flags_after_calls :
  forall (B : Backend) (cs : list call) (w : DH_Worker B),
    _exit (fold_left deliver cs w) = _exit w || existsb is_stop_call cs
    /\ _pause (fold_left deliver cs w)
       = match find (fun c => negb (is_stop_call c)) (rev cs) with
         | Some CallPause => true
         | Some CallCont => false
         | _ => _pause w
         end.
Proof.
  intros B cs w. apply flags_after_calls_aux.
Qed.

(** X7.  A stop request that is already pending when a session starts is
    consumed by that session: whatever the GUI thread calls meanwhile, the
    first pass leaves the loop with both flags cleared, without drawing a
    batch, applying a step or emitting a snapshot. *)
Theorem pending_stop_ends_session_at_entry :
  forall (B : Backend) (g : Globals) (gui : nat -> list call) (passes : nat)
         (w : DH_Worker B),
    _exit w = true -> (0 <= epochs w)%Z ->
    exists st' : frame B,
      run g gui (S passes) w = Returned StopHonoured st'
      /\ _exit (self st') = false /\ _pause (self st') = false
      /\ model (self st') = model w
      /\ mini_batch_iter st' = PyNone
      /\ emitted st' = [] /\ optimizer_steps st' = 0%nat.
Proof.
  intros B g gui passes w He Hep.
  pose proof (deliver_keeps_exit (gui 0%nat) w He) as Hexit.
  pose proof (deliver_keeps_config (gui 0%nat) w) as [Hepochs Hmod].
  eexists. unfold run. cbn [run_loop].
  rewrite iteration_on_exit.
  - split; [reflexivity|]. cbn. rewrite Hmod. repeat split.
  - cbn. rewrite Hepochs. exact Hep.
  - exact Hexit.
Qed.

Lemma pending_stop_ends_session_at_entry_witness :
  exists st' : frame toy,
    run shipped (fun _ => [CallCont; CallPause]) 3 (stop (toy_worker [1; 2; 3]%Z 2 2))
    = Returned StopHonoured st'
    /\ _exit (self st') = false /\ _pause (self st') = false
    /\ model (self st') = 0%Z
    /\ mini_batch_iter st' = PyNone
    /\ emitted st' = [] /\ optimizer_steps st' = 0%nat.
Proof.
  apply (pending_stop_ends_session_at_entry toy shipped
           (fun _ => [CallCont; CallPause]) 2 (stop (toy_worker [1; 2; 3]%Z 2 2))).
  - reflexivity.
  - vm_compute. discriminate.
Defined.

(** X8.  With a negative number of epochs the loop body is never entered:
    [run] returns at the first test, nothing is drawn, trained or emitted,
    and a stop request that is pending stays pending. *)
Theorem negative_epochs_return_at_once :
  forall (B : Backend) (g : Globals) (gui : nat -> list call) (passes : nat)
         (w : DH_Worker B),
    (epochs w < 0)%Z ->
    exists st' : frame B,
      run g gui (S passes) w = Returned EpochsDone st'
      /\ self st' = fold_left deliver (gui 0%nat) w
      /\ mini_batch_iter st' = Unbound
      /\ emitted st' = [] /\ optimizer_steps st' = 0%nat.
Proof.
  intros B g gui passes w Hep.
  pose proof (deliver_keeps_config (gui 0%nat) w) as [Hepochs _].
  eexists. unfold run. cbn [run_loop]. unfold iteration.
  cbn [deliver_all enter_run set_self self num_epoch].
  rewrite Hepochs.
  replace (0 <=? epochs w)%Z with false by (symmetry; apply Z.leb_gt; lia).
  cbn [negb]. repeat split.
Qed.

Lemma negative_epochs_return_at_once_witness :
  exists st' : frame toy,
    run shipped (fun _ => [CallStop]) 1 (toy_worker [1; 2; 3]%Z 2 (-1))
    = Returned EpochsDone st'
    /\ self st' = stop (toy_worker [1; 2; 3]%Z 2 (-1))
    /\ mini_batch_iter st' = Unbound
    /\ emitted st' = [] /\ optimizer_steps st' = 0%nat.
Proof.
  apply (negative_epochs_return_at_once toy shipped (fun _ => [CallStop]) 0
           (toy_worker [1; 2; 3]%Z 2 (-1))).
  reflexivity.
Defined.

(** X9.  For any number of epochs [E >= 0], [K > 0] training paths and a
    batch size [B > 0], a run that nobody pauses or stops, whose
    computations do not raise and whose clock advances returns by itself
    after [E * ceil(K/B) + 2] passes, having applied [E * ceil(K/B) + 1]
    optimizer steps and emitted as many snapshots; in particular with
    [epochs = 0] it still trains on one batch. *)
Theorem run_trains_one_batch_beyond_epochs :
  forall (B : Backend) (g : Globals) (w : DH_Worker B) (E K Bsz : nat),
    never_raises B -> clock_advances B -> shuffle_permutes B ->
    _exit w = false -> _pause w = false ->
    epochs w = Z.of_nat E ->
    List.length (training_dataset w) = K ->
    Ktrain w = Z.of_nat K -> batch_size w = Z.of_nat Bsz ->
    (0 < K)%nat -> (0 < Bsz)%nat ->
    exists st' : frame B,
      run g no_gui (E * ceil_div K Bsz + 2) w = Returned EpochsDone st'
      /\ List.length (emitted st') = (E * ceil_div K Bsz + 1)%nat
      /\ optimizer_steps st' = (E * ceil_div K Bsz + 1)%nat
      /\ num_epoch st' = (Z.of_nat E + 1)%Z.
Proof.
  intros B g w E K Bsz Hnr Hclk Hsh He Hp Hep HK HKt Hbs HKpos Hbpos.
  assert (Hds : training_dataset w <> []).
  { intros Hnil. rewrite Hnil in HK. simpl in HK. lia. }
  destruct (run_to_completion g w E Hnr Hclk Hsh He Hp Hep Hds
              ltac:(lia) ltac:(lia)) as (st' & Hrun & Hem & Hop & Hne).
  rewrite HK, Hbs, Nat2Z.id in Hrun, Hem, Hop.
  exists st'. repeat split; assumption.
Qed.

Lemma run_trains_one_batch_beyond_epochs_witness :
  exists st' : frame toy,
    run shipped no_gui 2 (toy_worker [1; 2; 3]%Z 2 0) = Returned EpochsDone st'
    /\ List.length (emitted st') = 1%nat
    /\ optimizer_steps st' = 1%nat
    /\ num_epoch st' = 1%Z.
Proof.
  refine (run_trains_one_batch_beyond_epochs toy shipped (toy_worker [1; 2; 3]%Z 2 0)
            0 3 2 toy_never_raises toy_clock_advances toy_shuffle_permutes
            _ _ _ _ _ _ _ _).
  - reflexivity.
  - reflexivity.
  - reflexivity.
  - reflexivity.
  - reflexivity.
  - reflexivity.
  - lia.
  - lia.
Defined.

(** X10.  With an empty training set (and a positive shuffle buffer and
    batch size) the first pass of a running loop ends the run with
    [StopIteration]: the unbound iterator sends it into the [except:] body,
    whose own draw finds nothing; the epoch counter is already 1 and
    nothing was trained or emitted. *)
Theorem empty_training_set_crashes :
  forall (B : Backend) (g : Globals) (passes : nat) (w : DH_Worker B),
    shuffle_permutes B ->
    training_dataset w = [] ->
    (0 < Ktrain w)%Z -> (0 < batch_size w)%Z ->
    _exit w = false -> _pause w = false -> (0 <= epochs w)%Z ->
    exists st' : frame B,
      run g no_gui (S passes) w = Crashed StopIteration st'
      /\ num_epoch st' = 1%Z
      /\ emitted st' = [] /\ optimizer_steps st' = 0%nat
      /\ self st' = w.
Proof.
  intros B g passes w Hsh Hds HK Hbs He Hp Hep.
  eexists. unfold run. cbn [run_loop]. unfold no_gui. rewrite deliver_all_nil.
  rewrite iteration_running by (cbn; assumption).
  cbn [enter_run mini_batch_iter next_batch].
  unfold except_body, new_iterator.
  cbn [enter_run set_counters self shuffles].
  replace (Ktrain w <=? 0)%Z with false by (symmetry; apply Z.leb_gt; lia).
  replace (batch_size w <=? 0)%Z with false by (symmetry; apply Z.leb_gt; lia).
  rewrite Hds.
  assert (Hnil : shuffle B 0 [] = []).
  { apply Permutation_nil, Permutation_sym, Hsh. }
  rewrite Hnil. cbn. repeat split.
Qed.

Lemma empty_training_set_crashes_witness :
  exists st' : frame toy,
    run shipped no_gui 1 (@init toy [] 4 2 2 0%Z 1%Z 1%Z [7%Z])
    = Crashed StopIteration st'
    /\ num_epoch st' = 1%Z
    /\ emitted st' = [] /\ optimizer_steps st' = 0%nat
    /\ self st' = @init toy [] 4 2 2 0%Z 1%Z 1%Z [7%Z].
Proof.
  apply (empty_training_set_crashes toy shipped 0
           (@init toy [] 4 2 2 0%Z 1%Z 1%Z [7%Z]) toy_shuffle_permutes).
  - reflexivity.
  - reflexivity.
  - reflexivity.
  - reflexivity.
  - reflexivity.
  - vm_compute. discriminate.
Defined.

End LoopExtras.

Section BatchExtras.
Import Config Worker Trace.

Lemma batch_fuel_concat {A : Type} (size : nat) :
  (0 < size)%nat ->
  forall (fuel : nat) (l : list A),
    (List.length l <= fuel)%nat -> List.concat (batch_fuel fuel size l) = l.
Proof.
  intros Hs. induction fuel as [|f IH]; intros l Hl.
  - destruct l; [reflexivity|simpl in Hl; lia].
  - destruct l as [|a l]; [reflexivity|].
    cbn [batch_fuel List.concat]. rewrite IH.
    + apply firstn_skipn.
    + rewrite length_skipn. cbn [List.length] in *. lia.
Qed.

Lemma batch_fuel_sizes {A : Type} (size : nat) :
  (0 < size)%nat ->
  forall (fuel : nat) (l : list A),
    Forall (fun b => b <> [] /\ (List.length b <= size)%nat) (batch_fuel fuel size l).
Proof.
  intros Hs. induction fuel as [|f IH]; intros l; [constructor|].
  destruct l as [|a l]; [constructor|].
  cbn [batch_fuel]. constructor; [|apply IH].
  split.
  - destruct size; [lia|]. discriminate.
  - rewrite length_firstn. lia.
Qed.

(** X11.  The iterator an epoch starts with holds every training example
    exactly once: its batches, put end to end, are a reordering of the
    training set; no batch is empty, none is larger than the batch size,
    and there are [ceil(K/B)] of them. *)
Theorem epoch_batches_partition_dataset :
  forall (B : Backend) (st : frame B) (it : iterator_var B),
    shuffle_permutes B ->
    new_iterator st = Ok it ->
    exists batches : list (list (example B)),
      it = Iterator batches
      /\ Permutation (List.concat batches) (training_dataset (self st))
      /\ Forall (fun b => b <> []
                          /\ (List.length b <= Z.to_nat (batch_size (self st)))%nat)
                batches
      /\ List.length batches
         = ceil_div (List.length (training_dataset (self st)))
                    (Z.to_nat (batch_size (self st))).
Proof.
  intros B st it Hsh. unfold new_iterator.
  destruct (Ktrain (self st) <=? 0)%Z; [discriminate|].
  destruct (batch_size (self st) <=? 0)%Z eqn:Hb; [discriminate|].
  apply Z.leb_gt in Hb.
  assert (Hpos : (0 < Z.to_nat (batch_size (self st)))%nat) by lia.
  intros H. injection H as <-.
  eexists. split; [reflexivity|].
  split; [|split].
  - unfold batch. rewrite batch_fuel_concat by (assumption || lia). apply Hsh.
  - apply batch_fuel_sizes. exact Hpos.
  - rewrite batch_length by exact Hpos.
    now rewrite (Permutation_length (Hsh _ _)).
Qed.

Lemma epoch_batches_partition_dataset_witness :
  exists batches : list (list Z),
    @Iterator toy [[5; 4]; [3; 2]; [1]]%Z = @Iterator toy batches
    /\ Permutation (List.concat batches) [1; 2; 3; 4; 5]%Z
    /\ Forall (fun b => b <> [] /\ (List.length b <= 2)%nat) batches
    /\ List.length batches = ceil_div 5 2.
Proof.
  apply (epoch_batches_partition_dataset toy
           (enter_run (toy_worker [1; 2; 3; 4; 5]%Z 2 2))
           (@Iterator toy [[5; 4]; [3; 2]; [1]]%Z) toy_shuffle_permutes).
  reflexivity.
Defined.

(** X12.  The snapshot a step emits describes the network before the
    step's update: its loss, out-of-sample PnL and delta curve are computed
    with the weights the step started from, and only afterwards are the
    gradients applied to give the weights the worker holds next. *)
Theorem snapshot_reports_weights_before_step :
  forall (B : Backend) (g : Globals) (st st' : frame B)
         (mini_batch : list (example B)),
    training_step g st mini_batch = Next st' ->
    (start st < time_time B (clock_reads st))%Z ->
    exists (snap : snapshot B) (grads : gradients B),
      emitted st' = emitted st ++ [snap]
      /\ recorded_loss g st mini_batch (model (self st)) = Ok (loss snap)
      /\ model_func B (model (self st)) (xtest (self st)) = Ok (PnL_DH snap)
      /\ submodel_func B (model (self st)) = Ok (DH_delta snap)
      /\ tape_gradient B (recorded_loss g st mini_batch) (model (self st)) = Ok grads
      /\ model (self st')
         = snd (apply_gradients B (optimizer st) (model (self st)) grads).
Proof.
  intros B g st st' mb Hstep Hclk. unfold training_step in Hstep.
  destruct (num_batch st) as [b|]; [|discriminate].
  unfold forward_backward in Hstep.
  change (recorded_loss g (set_counters (num_epoch st) (Some (b + 1)%Z) st) mb)
    with (recorded_loss g st mb) in Hstep.
  cbn [set_counters self] in Hstep.
  destruct (recorded_loss g st mb (model (self st))) as [lv|]; [|discriminate].
  cbn [bind] in Hstep.
  destruct (model_func B (model (self st)) (xtest (self st))) as [pnl|]; [|discriminate].
  cbn [bind] in Hstep.
  destruct (submodel_func B (model (self st))) as [dl|]; [|discriminate].
  cbn [bind] in Hstep.
  destruct (tape_gradient B (recorded_loss g st mb) (model (self st))) as [gr|];
    [|discriminate].
  cbn [bind] in Hstep. injection Hstep as <-.
  unfold commit. cbn [set_counters self optimizer start clock_reads emitted].
  destruct (apply_gradients B (optimizer st) (model (self st)) gr)
    as [opt w'] eqn:Hag.
  replace (time_time B (clock_reads st) - start st >? 0)%Z with true
    by (symmetry; apply Z.gtb_lt; lia).
  eexists. exists gr. rewrite Hag. cbn. repeat split.
Qed.

Lemma snapshot_reports_weights_before_step_witness :
  let st := set_counters 1 (Some 0%Z) (enter_run (toy_worker [1; 2; 3]%Z 2 2)) in
  let st' := outcome_frame (training_step shipped st [3; 2]%Z) in
  exists (snap : snapshot toy) (grads : Z),
    emitted st' = emitted st ++ [snap]
    /\ recorded_loss shipped st [3; 2]%Z (model (self st)) = Ok (loss snap)
    /\ model_func toy (model (self st)) (xtest (self st)) = Ok (PnL_DH snap)
    /\ submodel_func toy (model (self st)) = Ok (DH_delta snap)
    /\ tape_gradient toy (recorded_loss shipped st [3; 2]%Z) (model (self st))
       = Ok grads
    /\ model (self st')
       = snd (apply_gradients toy (optimizer st) (model (self st)) grads).
Proof.
  cbv zeta.
  apply (snapshot_reports_weights_before_step toy shipped
           (set_counters 1 (Some 0%Z) (enter_run (toy_worker [1; 2; 3]%Z 2 2)))
           (outcome_frame
              (training_step shipped
                 (set_counters 1 (Some 0%Z) (enter_run (toy_worker [1; 2; 3]%Z 2 2)))
                 [3; 2]%Z))
           [3; 2]%Z).
  - reflexivity.
  - vm_compute. reflexivity.
Defined.

End BatchExtras.

Section SubModelExtras.
Import SubModel.

Lemma get_layer_found (layers : list layer) (n : string) :
  (exists l, get_layer layers n = Ok l /\ name l = n /\ In l layers)
  <-> In n (map name layers).
Proof.
  unfold get_layer. split.
  - intros (l & H & Hn & Hin). rewrite <- Hn. now apply in_map.
  - intros Hin. apply in_map_iff in Hin as (l0 & Hn0 & Hin0).
    destruct (find (fun l => String.eqb (name l) n) layers) as [l|] eqn:Hf.
    + apply find_some in Hf as [Hin Heq]. apply String.eqb_eq in Heq. eauto.
    + apply (find_none _ _ Hf) in Hin0. apply String.eqb_neq in Hin0. contradiction.
Qed.

Lemma get_layer_missing (layers : list layer) (n : string) :
  ~ In n (map name layers) ->
  get_layer layers n = Raise (ValueError (String.append "No such layer: " n)).
Proof.
  intros Hnin. unfold get_layer.
  destruct (find (fun l => String.eqb (name l) n) layers) as [l|] eqn:Hf;
    [|reflexivity].
  apply find_some in Hf as [Hin Heq]. apply String.eqb_eq in Heq.
  exfalso. apply Hnin. rewrite <- Heq. now apply in_map.
Qed.

(** X14.  For the simple architecture a missing layer stops the
    construction: when the network lacks a "dense_0_<day>" layer or a
    "delta_<day>" layer, [ValueError] is raised and no sub-model is
    returned. *)
Theorem simple_submodel_missing_layer :
  forall (days : nat) (layers : list layer),
    ~ (In (String.append "dense_0_" (str days)) (map name layers)
       /\ In (String.append "delta_" (str days)) (map name layers)) ->
    exists msg : string,
      Define_DH_Delta_Strategy_Model days "simple" layers = Raise (ValueError msg).
Proof.
  intros days layers Hnot.
  unfold Define_DH_Delta_Strategy_Model. cbn [String.eqb Ascii.eqb Bool.eqb].
  destruct (in_dec string_dec (String.append "dense_0_" (str days)) (map name layers))
    as [H1|H1].
  - pose proof H1 as H1'.
    apply get_layer_found in H1 as (a & Ha & _). rewrite Ha. cbn [bind].
    rewrite get_layer_missing; [eexists; reflexivity|].
    intros H2. apply Hnot. now split.
  - rewrite get_layer_missing by exact H1. eexists. reflexivity.
Qed.

Lemma simple_submodel_missing_layer_witness :
  exists msg : string,
    Define_DH_Delta_Strategy_Model days_from_today "simple"
      [{| name := "prc_0"; ident := 0 |}; {| name := "dense_0_15"; ident := 1 |}]
    = Raise (ValueError msg).
Proof.
  apply (simple_submodel_missing_layer days_from_today
           [{| name := "prc_0"; ident := 0 |}; {| name := "dense_0_15"; ident := 1 |}]).
  cbn. intros [_ [H|[H|[]]]]; discriminate H.
Defined.

(** X15.  For the recurrent architecture, whenever the network's first
    layer is not named "delta_15" the construction raises [NameError] for
    [flag_add_layer_for_submodel] in the first round of its loop, whatever
    layers the network has: the loop tests a variable that is assigned
    nowhere. *)
Theorem recurrent_scan_raises_NameError :
  forall (days : nat) (l : layer) (rest : list layer),
    name l <> "delta_15"%string ->
    Define_DH_Delta_Strategy_Model days "recurrent" (l :: rest)
    = Raise (NameError "flag_add_layer_for_submodel").
Proof.
  intros days l rest Hname.
  unfold Define_DH_Delta_Strategy_Model. cbn [String.eqb Ascii.eqb Bool.eqb].
  cbn [scan].
  destruct (String.eqb (name l) (String.append "dense_0_" (str days))).
  - reflexivity.
  - apply String.eqb_neq in Hname. rewrite Hname. reflexivity.
Qed.

Lemma recurrent_scan_raises_NameError_witness :
  Define_DH_Delta_Strategy_Model days_from_today "recurrent"
    [{| name := "prc_0"; ident := 0 |}; {| name := "dense_0_15"; ident := 1 |};
     {| name := "delta_15"; ident := 2 |}]
  = Raise (NameError "flag_add_layer_for_submodel").
Proof.
  apply (recurrent_scan_raises_NameError days_from_today
           {| name := "prc_0"; ident := 0 |}
           [{| name := "dense_0_15"; ident := 1 |};
            {| name := "delta_15"; ident := 2 |}]).
  discriminate.
Defined.

End SubModelExtras.

Section DatasetExtras.
Import Config Dataset.

Lemma flat_map_pairs_length {A : Type} (f h : nat -> A) (l : list nat) :
  List.length (flat_map (fun i => [f i; h i]) l) = (2 * List.length l)%nat.
Proof.
  induction l as [|i l IH]; simpl; [reflexivity|]. rewrite IH. lia.
Qed.

Lemma I_length {num : Type} (zero : num) (np_log : num -> num)
  (np_div : num -> num -> num) (mode : information_mode) (S0 : num)
  (S : paths num) (i : nat) :
  List.length (I zero np_log np_div mode S0 S i) = List.length S.
Proof.
  destruct mode; unfold I, stack_axis1; now rewrite !length_map.
Qed.

(** X16.  For [N] time steps [x_all] has [2N + 2] tensors, and every one of
    them has exactly one entry per simulated path, so the tensors can be
    sliced together path by path. *)
Theorem x_all_shape :
  forall (num : Type) (zero : num) (np_log : num -> num)
         (np_div : num -> num -> num) (payoff : num -> num)
         (g : Globals) (N : nat) (S0 : num) (S : paths num),
    List.length (x_all zero np_log np_div payoff g N S0 S) = (2 * N + 2)%nat
    /\ Forall (fun col => List.length col = List.length S)
              (x_all zero np_log np_div payoff g N S0 S).
Proof.
  intros num zero np_log np_div payoff g N S0 S.
  unfold x_all. rewrite x_all_of_built. unfold built_order. split.
  - rewrite length_app, flat_map_pairs_length, length_seq. simpl. lia.
  - apply Forall_app. split.
    + apply Forall_forall. intros col Hin.
      apply in_flat_map in Hin as (i & _ & [<-|[<-|[]]]).
      * unfold trade_set, stack_axis1. now rewrite length_map.
      * apply I_length.
    + constructor; [|constructor; [|constructor]].
      * unfold trade_set, stack_axis1. now rewrite length_map.
      * unfold payoff_T. now rewrite length_map.
Qed.

Lemma nth_stack_axis1 {num : Type} (zero : num) (S : paths num) (i k : nat) :
  (k < List.length S)%nat ->
  nth k (stack_axis1 zero S i) zero = nth i (nth k S []) zero.
Proof.
  intros Hk. unfold stack_axis1.
  rewrite (nth_indep _ zero (nth i [] zero)) by now rewrite length_map.
  now rewrite (map_nth (fun row => nth i row zero)).
Qed.

Lemma nth_map_in_range {A C : Type} (f : A -> C) (l : list A) (i : nat) (a : A) (c : C) :
  (i < List.length l)%nat -> nth i (map f l) c = f (nth i l a).
Proof.
  intros Hi. rewrite (nth_indep _ c (f a)) by now rewrite length_map.
  apply map_nth.
Qed.

(** X17.  The training tuple of path [k] is made from that path's prices
    alone: when the path has [N + 1] prices, the tuple lists, for each step
    before the last, the price and the information signal computed from
    that price (the price itself, its logarithm, or the logarithm of its
    ratio to [S0], by the information mode), then the last price, then the
    payoff of the last price. *)
Theorem example_of_path :
  forall (num : Type) (zero : num) (np_log : num -> num)
         (np_div : num -> num -> num) (payoff : num -> num)
         (g : Globals) (N : nat) (S0 : num) (S : paths num) (k : nat),
    (k < List.length S)%nat ->
    List.length (nth k S []) = (N + 1)%nat ->
    let row := nth k S [] in
    let signal (s : num) :=
      match information_set g with
      | Info_S => s
      | Info_log_S => np_log s
      | Info_normalized_log_S => np_log (np_div s S0)
      end in
    tensor_slice zero (x_all zero np_log np_div payoff g N S0 S) k
    = flat_map (fun i => [nth i row zero; signal (nth i row zero)]) (seq 0 N)
      ++ [nth N row zero; payoff (last row zero)].
Proof.
  intros num zero np_log np_div payoff g N S0 S k Hk Hrow row signal.
  unfold x_all. rewrite x_all_of_built. unfold built_order, tensor_slice.
  rewrite map_app. f_equal.
  - assert (Hin : forall i, In i (seq 0 N) -> (i < N)%nat)
      by (intros i Hi; apply in_seq in Hi; lia).
    induction (seq 0 N) as [|i l IH]; [reflexivity|].
    cbn [flat_map map app]. rewrite IH by (intros j Hj; apply Hin; now right).
    assert (Hi : (i < List.length row)%nat).
    { subst row. rewrite Hrow. specialize (Hin i (or_introl eq_refl)). lia. }
    f_equal; [|f_equal].
    + unfold trade_set. now rewrite nth_stack_axis1.
    + unfold I, signal. destruct (information_set g).
      * now rewrite nth_stack_axis1.
      * rewrite nth_stack_axis1 by now rewrite length_map.
        rewrite (nth_map_in_range (map np_log) S k [] []) by exact Hk.
        now apply nth_map_in_range.
      * rewrite nth_stack_axis1 by now rewrite length_map.
        rewrite (nth_map_in_range (map (fun s => np_log (np_div s S0))) S k [] [])
          by exact Hk.
        now apply (nth_map_in_range (fun s => np_log (np_div s S0))).
  - cbn [map app]. unfold trade_set. rewrite nth_stack_axis1 by exact Hk.
    f_equal. f_equal. unfold payoff_T.
    now rewrite (nth_map_in_range _ S k [] zero) by exact Hk.
Qed.

Lemma example_of_path_witness :
  tensor_slice 0%Z
    (x_all 0%Z Z.log2 Z.div (fun x => (- Z.max (x - 100) 0)%Z) shipped 1 100%Z
           [[100; 110]; [100; 90]]%Z) 1
  = [100; Z.log2 (100 / 100); 90; - Z.max (90 - 100) 0]%Z.
Proof.
  apply (example_of_path Z 0%Z Z.log2 Z.div (fun x => (- Z.max (x - 100) 0)%Z)
           shipped 1 100%Z [[100; 110]; [100; 90]]%Z 1).
  - simpl. lia.
  - reflexivity.
Defined.

Lemma payoff_func_closed_form (K x : R) :
  payoff_func K x = Rmin 0 (K - x) /\ (payoff_func K x <= 0)%R.
Proof.
  unfold payoff_func, Rmin, Rmax.
  destruct (Rle_dec (x - K) 0), (Rle_dec 0 (K - x)); split; lra.
Qed.

(** X18.  With the short-call payoff of strike [K], the last tensor of
    [x_all] is the payoff column: for every path it holds
    [min(0, K - S_T)], where [S_T] is the path's last price, so no entry is
    positive. *)
Theorem payoff_column_nonpositive :
  forall (g : Globals) (N : nat) (S0 K : R) (S : paths R),
    last (x_all 0%R ln Rdiv (payoff_func K) g N S0 S) []
    = map (fun row => Rmin 0 (K - last row 0%R)) S
    /\ Forall (fun p => (p <= 0)%R)
              (last (x_all 0%R ln Rdiv (payoff_func K) g N S0 S) []).
Proof.
  intros g N S0 K S.
  assert (E : last (x_all 0%R ln Rdiv (payoff_func K) g N S0 S) []
              = payoff_T 0%R (payoff_func K) S).
  { unfold x_all. rewrite x_all_of_built. unfold built_order.
    rewrite app_assoc. apply last_last. }
  rewrite E. unfold payoff_T. split.
  - apply map_ext. intros row. apply payoff_func_closed_form.
  - apply Forall_forall. intros p Hp. apply in_map_iff in Hp as (row & <- & _).
    apply payoff_func_closed_form.
Qed.

End DatasetExtras.

Section ResumeExtras.
Import Config Worker Trace.

Lemma run_loop_split (B : Backend) (g : Globals) (gui : nat -> list call) :
  forall (a b k : nat) (st : frame B),
    run_loop g gui (a + b) k st
    = match run_loop g gui a k st with
      | StillLooping st' => run_loop g gui b (k + a) st'
      | r => r
      end.
Proof.
  induction a as [|a IH]; intros b k st.
  - cbn [run_loop Nat.add]. now rewrite Nat.add_0_r.
  - cbn [run_loop Nat.add].
    destruct (iteration g (deliver_all (gui k) st)) as [st'|r st'|e st'];
      [|reflexivity|reflexivity].
    rewrite IH. now replace (S k + a)%nat with (k + S a)%nat by lia.
Qed.

Lemma run_loop_gui_ext (B : Backend) (g : Globals) (gui gui' : nat -> list call) :
  forall (n k : nat) (st : frame B),
    (forall i, (k <= i < k + n)%nat -> gui i = gui' i) ->
    run_loop g gui n k st = run_loop g gui' n k st.
Proof.
  induction n as [|n IH]; intros k st Hext; [reflexivity|].
  cbn [run_loop]. rewrite (Hext k) by lia.
  destruct (iteration g (deliver_all (gui' k) st)); try reflexivity.
  apply IH. intros i Hi. apply Hext. lia.
Qed.

Lemma training_step_sleeps (B : Backend) (g : Globals) (m : nat) (st : frame B) mb :
  training_step g (add_sleeps m st) mb
  = map_outcome (add_sleeps m) (training_step g st mb).
Proof.
  unfold training_step. cbn [add_sleeps num_batch].
  destruct (num_batch st) as [b|]; [|reflexivity].
  change (forward_backward g
            (set_counters (num_epoch (add_sleeps m st)) (Some (b + 1)%Z)
               (add_sleeps m st)) mb)
    with (forward_backward g (set_counters (num_epoch st) (Some (b + 1)%Z) st) mb).
  destruct (forward_backward g (set_counters (num_epoch st) (Some (b + 1)%Z) st) mb)
    as [[snap gr]|e]; [|reflexivity].
  cbn [map_outcome]. f_equal. unfold commit.
  cbn [add_sleeps set_counters self optimizer start clock_reads emitted
       optimizer_steps num_epoch num_batch mini_batch_iter shuffles sleeps
       certainty_equiv].
  destruct (apply_gradients B (optimizer st) (model (self st)) gr) as [opt w'].
  reflexivity.
Qed.

Lemma iteration_sleeps (B : Backend) (g : Globals) (m : nat) (st : frame B) :
  iteration g (add_sleeps m st) = map_outcome (add_sleeps m) (iteration g st).
Proof.
  unfold iteration. cbn [add_sleeps num_epoch self mini_batch_iter].
  destruct (negb _); [reflexivity|].
  destruct (_exit (self st)); [reflexivity|].
  destruct (negb _); [|reflexivity].
  destruct (next_batch (mini_batch_iter st)) as [[mb it]|e].
  - apply (training_step_sleeps B g m (set_iter it st) mb).
  - unfold except_body.
    change (new_iterator (set_counters (num_epoch (add_sleeps m st) + 1)%Z
                            (Some 0%Z) (add_sleeps m st)))
      with (new_iterator (set_counters (num_epoch st + 1)%Z (Some 0%Z) st)).
    destruct (new_iterator _) as [it|e']; [|reflexivity].
    destruct (next_batch it) as [[mb it']|e']; [|reflexivity].
    apply (training_step_sleeps B g m
             (set_iter it' (count_shuffle (set_iter it
                (set_counters (num_epoch st + 1)%Z (Some 0%Z) st)))) mb).
Qed.

Lemma run_loop_sleeps (B : Backend) (g : Globals) (gui : nat -> list call) (m : nat) :
  forall (n k : nat) (st : frame B),
    run_loop g gui n k (add_sleeps m st)
    = map_result (add_sleeps m) (run_loop g gui n k st).
Proof.
  induction n as [|n IH]; intros k st; [reflexivity|].
  cbn [run_loop].
  change (deliver_all (gui k) (add_sleeps m st))
    with (add_sleeps m (deliver_all (gui k) st)).
  rewrite iteration_sleeps.
  destruct (iteration g (deliver_all (gui k) st)); cbn [map_outcome map_result];
    [apply IH|reflexivity|reflexivity].
Qed.

Lemma paused_passes_exact (B : Backend) (g : Globals) :
  forall (n k : nat) (st : frame B),
    (num_epoch st <= epochs (self st))%Z ->
    _exit (self st) = false -> _pause (self st) = true ->
    run_loop g no_gui n k st = StillLooping (add_sleeps n st).
Proof.
  induction n as [|n IH]; intros k st Hlive He Hp.
  - cbn [run_loop]. destruct st. unfold add_sleeps. cbn. now rewrite Nat.add_0_r.
  - assert (Hpass : iteration g st = Next (sleep st)).
    { unfold iteration.
      replace (num_epoch st <=? epochs (self st))%Z with true
        by (symmetry; now apply Z.leb_le).
      cbn [negb]. now rewrite He, Hp. }
    rewrite (run_loop_next g k n st (sleep st) Hpass).
    rewrite (IH (S k) (sleep st) Hlive He Hp).
    f_equal. unfold add_sleeps, sleep.
    cbn [self certainty_equiv optimizer num_epoch num_batch mini_batch_iter
         start clock_reads shuffles emitted optimizer_steps sleeps].
    f_equal. lia.
Qed.

Lemma cont_pause (B : Backend) (w : DH_Worker B) :
  _pause w = false -> cont (pause w) = w.
Proof.
  intros Hp. destruct w. cbn in *. now subst.
Qed.

(** X20.  Pausing and resuming is invisible to the training: if [pause()]
    is called before a pass of a running loop and [cont()] some passes
    later, then, for the same shuffle orders and the same clock readings,
    the loop afterwards does exactly what it would have done without the
    pause -- same batches, weights, snapshots and outcome -- having only
    slept once for every pass in between. *)
Theorem pause_then_resume_is_transparent :
  forall (B : Backend) (g : Globals) (m n k : nat) (st : frame B),
    (num_epoch st <= epochs (self st))%Z ->
    _exit (self st) = false -> _pause (self st) = false ->
    run_loop g (pause_window k (S m)) (S m + S n) k st
    = map_result (add_sleeps (S m)) (run_loop g no_gui (S n) (k + S m) st).
Proof.
  intros B g m n k st Hlive He Hp.
  set (paused := deliver_all [CallPause] st).
  assert (Hpaused : run_loop g (pause_window k (S m)) (S m) k st
                    = StillLooping (add_sleeps (S m) paused)).
  { replace (S m) with (1 + m)%nat at 2 by lia. rewrite run_loop_split.
    cbn [run_loop]. unfold pause_window at 1. rewrite Nat.eqb_refl. fold paused.
    assert (Hpass : iteration g paused = Next (sleep paused)).
    { unfold iteration, paused. cbn [deliver_all set_self self num_epoch fold_left
        deliver pause set_flags _exit _pause epochs].
      replace (num_epoch st <=? epochs (self st))%Z with true
        by (symmetry; now apply Z.leb_le).
      cbn [negb]. now rewrite He. }
    rewrite Hpass.
    rewrite (run_loop_gui_ext B g (pause_window k (S m)) no_gui m (k + 1) (sleep paused)).
    2:{ intros i Hi. unfold pause_window, no_gui.
        replace (i =? k)%nat with false by (symmetry; apply Nat.eqb_neq; lia).
        now replace (i =? k + S m)%nat with false by (symmetry; apply Nat.eqb_neq; lia). }
    rewrite paused_passes_exact.
    - f_equal. unfold add_sleeps, sleep.
      cbn [self certainty_equiv optimizer num_epoch num_batch mini_batch_iter
           start clock_reads shuffles emitted optimizer_steps sleeps].
      f_equal. lia.
    - exact Hlive.
    - unfold paused. cbn. exact He.
    - reflexivity. }
  rewrite run_loop_split, Hpaused.
  assert (Hresumed : deliver_all [CallCont] (add_sleeps (S m) paused)
                     = add_sleeps (S m) st).
  { unfold deliver_all, paused, deliver_all, set_self, add_sleeps.
    cbn [fold_left deliver self certainty_equiv optimizer num_epoch num_batch
         mini_batch_iter start clock_reads shuffles emitted optimizer_steps sleeps].
    now rewrite (cont_pause B (self st) Hp). }
  rewrite <- run_loop_sleeps.
  cbn [run_loop]. unfold pause_window at 1, no_gui at 1.
  replace (k + S m =? k)%nat with false by (symmetry; apply Nat.eqb_neq; lia).
  rewrite Nat.eqb_refl, Hresumed, deliver_all_nil.
  destruct (iteration g (add_sleeps (S m) st)); try reflexivity.
  apply run_loop_gui_ext. intros i Hi. unfold pause_window, no_gui.
  replace (i =? k)%nat with false by (symmetry; apply Nat.eqb_neq; lia).
  now replace (i =? k + S m)%nat with false by (symmetry; apply Nat.eqb_neq; lia).
Qed.

Lemma pause_then_resume_is_transparent_witness :
  run_loop shipped (pause_window 1 3) (3 + 4) 1
    (final_frame (run shipped no_gui 1 (toy_worker [1; 2; 3; 4; 5]%Z 2 2)))
  = map_result (add_sleeps 3)
      (run_loop shipped no_gui 4 (1 + 3)
         (final_frame (run shipped no_gui 1 (toy_worker [1; 2; 3; 4; 5]%Z 2 2)))).
Proof.
  apply (pause_then_resume_is_transparent toy shipped 2 3 1
           (final_frame (run shipped no_gui 1 (toy_worker [1; 2; 3; 4; 5]%Z 2 2)))).
  - vm_compute. discriminate.
  - reflexivity.
  - reflexivity.
Defined.

End ResumeExtras.
